(** * AI Image Studio: the image-canvas interaction layer of [RightPanel.tsx]

    A shallow embedding of the controllers in
    [src/components/RightPanel.tsx] (DraggableText, CropBox, ImageComparator,
    DownloadModal and the hosting RightPanel) together with the properties
    the specification states about them.

    Conventions of the embedding.
    - A JavaScript [number] is an exact rational ([Q]); equality of numbers is
      [==].  Rounding, [NaN] and the infinities are outside the model, so
      every statement whose computation divides assumes a non-zero divisor.
    - [string | null] is [option string]; JavaScript truthiness is [truthy].
    - A React state cell is a field of the component's [State] record; a
      handler is a function from state to state and always reads the state
      of the latest committed render.
    - [window.addEventListener] / [removeEventListener] act on an explicit
      listener registry; a [useEffect] is its body, its cleanup and the
      dependency test that decides whether they run after a render.
    - An [async] handler is split at its [await]: the part that runs at once
      and the part that runs when the awaited promise settles. *)

From Stdlib Require Import QArith Qminmax Lqa ZArith Lia.
From Stdlib Require Import Ascii String List Bool.
Import ListNotations.

Local Open Scope Q_scope.

(** ** JavaScript values *)

Module JS.

(** [s.includes(sub)]: [sub] occurs in [s] as a contiguous substring. *)
Fixpoint includes (s sub : string) : bool :=
  if String.prefix sub s then true
  else match s with
       | EmptyString => false
       | String _ rest => includes rest sub
       end.

(** Truthiness of a [string | null]: [null] and [''] are falsy. *)
Definition truthy (v : option string) : bool :=
  match v with
  | None => false
  | Some s => negb (String.eqb s EmptyString)
  end.

(** [a || b] on [string | null]: the first operand when it is truthy. *)
Definition or_else (a b : option string) : option string :=
  if truthy a then a else b.

(** [list.indexOf(v)] on strings: the first position of [v], or -1. *)
Fixpoint indexOf (l : list string) (v : string) : Z :=
  match l with
  | [] => (-1)%Z
  | head :: rest =>
      if String.eqb head v then 0%Z
      else
        let i := indexOf rest v in
        if (i <? 0)%Z then (-1)%Z else (i + 1)%Z
  end.

(** [s.split(' ')] without the empty pieces: the class names of a
    [className]. *)
Fixpoint classList_from (current : string) (s : string) : list string :=
  match s with
  | EmptyString =>
      if String.eqb current EmptyString then [] else [current]
  | String c rest =>
      if Ascii.eqb c " "%char then
        if String.eqb current EmptyString then classList_from EmptyString rest
        else current :: classList_from EmptyString rest
      else classList_from (current ++ String c EmptyString)%string rest
  end.

Definition classList (className : string) : list string :=
  classList_from EmptyString className.

End JS.

(** ** The DOM values the handlers read *)

Module DOMRect.
(** The result of [getBoundingClientRect()]. *)
Record t : Type := mk { left : Q; top : Q; width : Q; height : Q }.
End DOMRect.

Module MouseEvent.
(** [button] is 0 for the primary button. *)
Record t : Type := mk { clientX : Q; clientY : Q; button : Z }.
End MouseEvent.

Module TouchEvent.
(** [touches] in order; each touch is its [(clientX, clientY)]. *)
Record t : Type := mk { touches : list (Q * Q) }.
End TouchEvent.

(** The listener registry of [window]. *)
Module Window.

(** A listener is named by its event type and its callback. *)
Definition Listener : Type := (string * string)%type.

Definition t : Type := list Listener.

Definition same (a b : Listener) : bool :=
  String.eqb (fst a) (fst b) && String.eqb (snd a) (snd b).

Definition registered (l : Listener) (w : t) : bool := existsb (same l) w.

(** Adding a listener that is already registered does nothing. *)
Definition addEventListener (type callback : string) (w : t) : t :=
  if registered (type, callback) w then w else w ++ [(type, callback)].

Definition removeEventListener (type callback : string) (w : t) : t :=
  filter (fun l => negb (same (type, callback) l)) w.

End Window.

(** ** types.ts *)

Module CropState.
(** All four fields are percentages of the tool container. *)
Record t : Type := mk { x : Q; y : Q; width : Q; height : Q }.

(** The invariant of the data model: the rectangle lies inside the
    container and is at least 5% wide and high. *)
Definition valid (c : t) : Prop :=
  (5 <= width c <= 100) /\ (5 <= height c <= 100) /\
  (0 <= x c <= 100 - width c) /\ (0 <= y c <= 100 - height c).
End CropState.

Module TextOverlayState.
(** [size] is a percentage of the image width, [x] and [y] percentages of
    the tool container. *)
Record t : Type := mk
  { text : string; color : string; size : Q; font : string; x : Q; y : Q }.
End TextOverlayState.

(** ** DraggableText *)

Module DraggableText.

Record DragStartPos : Type := mkDragStartPos
  { x : Q; y : Q; textX : Q; textY : Q }.

Record State : Type := mkState
  { isDragging : bool;
    dragStartPos : DragStartPos;
    (** the [textOverlay] prop, written through [setTextOverlay] *)
    textOverlay : TextOverlayState.t;
    window : Window.t }.

Definition setIsDragging (b : bool) (s : State) : State :=
  {| isDragging := b;
     dragStartPos := dragStartPos s;
     textOverlay := textOverlay s;
     window := window s |}.

Definition setTextOverlay (f : TextOverlayState.t -> TextOverlayState.t)
    (s : State) : State :=
  {| isDragging := isDragging s;
     dragStartPos := dragStartPos s;
     textOverlay := f (textOverlay s);
     window := window s |}.

(** [handleDelete]: only [text] is cleared. *)
Definition handleDelete (s : State) : State :=
  setTextOverlay
    (fun prev =>
       TextOverlayState.mk EmptyString (TextOverlayState.color prev)
         (TextOverlayState.size prev) (TextOverlayState.font prev)
         (TextOverlayState.x prev) (TextOverlayState.y prev)) s.

(** [handleDragStart(clientX, clientY)]; [container] and [textEl] are the
    bounding rectangles of [containerRef.current] and [textRef.current],
    [None] when the ref is null. *)
Definition handleDragStart (container textEl : option DOMRect.t)
    (clientX clientY : Q) (s : State) : State :=
  match container, textEl with
  | Some containerRect, Some textRect =>
      {| isDragging := true;
         dragStartPos :=
           {| x := clientX;
              y := clientY;
              textX := DOMRect.left textRect - DOMRect.left containerRect;
              textY := DOMRect.top textRect - DOMRect.top containerRect |};
         textOverlay := textOverlay s;
         window := window s |}
  | _, _ => s
  end.

(** [onMouseDown(e)]; there is no test of [e.button]. *)
Definition onMouseDown (container textEl : option DOMRect.t)
    (e : MouseEvent.t) (s : State) : State :=
  handleDragStart container textEl
    (MouseEvent.clientX e) (MouseEvent.clientY e) s.

(** [onTouchStart(e)] reads [e.touches[0]]; with no touch the read throws
    and the handler changes nothing. *)
Definition onTouchStart (container textEl : option DOMRect.t)
    (e : TouchEvent.t) (s : State) : State :=
  match TouchEvent.touches e with
  | (clientX, clientY) :: _ => handleDragStart container textEl clientX clientY s
  | [] => s
  end.

Definition handleDragMove (container : option DOMRect.t)
    (clientX clientY : Q) (s : State) : State :=
  match container with
  | Some containerRect =>
      if isDragging s then
        let dx := clientX - x (dragStartPos s) in
        let dy := clientY - y (dragStartPos s) in
        let newX := textX (dragStartPos s) + dx in
        let newY := textY (dragStartPos s) + dy in
        let newXPercent :=
          Qmax 0 (Qmin 100 ((newX / DOMRect.width containerRect) * 100)) in
        let newYPercent :=
          Qmax 0 (Qmin 100 ((newY / DOMRect.height containerRect) * 100)) in
        setTextOverlay
          (fun prev =>
             TextOverlayState.mk (TextOverlayState.text prev)
               (TextOverlayState.color prev) (TextOverlayState.size prev)
               (TextOverlayState.font prev) newXPercent newYPercent) s
      else s
  | None => s
  end.

Definition handleDragEnd (s : State) : State := setIsDragging false s.

(** The listeners of the effect of lines 67-88. *)
Definition onMouseMove (container : option DOMRect.t) (e : MouseEvent.t)
    (s : State) : State :=
  handleDragMove container (MouseEvent.clientX e) (MouseEvent.clientY e) s.

Definition onTouchMove (container : option DOMRect.t) (e : TouchEvent.t)
    (s : State) : State :=
  match TouchEvent.touches e with
  | (clientX, clientY) :: _ => handleDragMove container clientX clientY s
  | [] => s
  end.

Definition effect (s : State) (w : Window.t) : Window.t :=
  if isDragging s then
    Window.addEventListener "touchend" "handleDragEnd"
      (Window.addEventListener "touchmove" "onTouchMove"
         (Window.addEventListener "mouseup" "handleDragEnd"
            (Window.addEventListener "mousemove" "onMouseMove" w)))
  else w.

Definition cleanup (w : Window.t) : Window.t :=
  Window.removeEventListener "touchend" "handleDragEnd"
    (Window.removeEventListener "touchmove" "onTouchMove"
       (Window.removeEventListener "mouseup" "handleDragEnd"
          (Window.removeEventListener "mousemove" "onMouseMove" w))).

(** The dependencies are [isDragging], [handleDragMove] (recreated when
    [isDragging] changes) and [handleDragEnd] (created once). *)
Definition deps_changed (old new : State) : bool :=
  negb (Bool.eqb (isDragging old) (isDragging new)).

(** The render after a state update: when a dependency changed the previous
    effect is cleaned up and the effect runs again. *)
Definition commit (old new : State) : State :=
  if deps_changed old new then
    {| isDragging := isDragging new;
       dragStartPos := dragStartPos new;
       textOverlay := textOverlay new;
       window := effect new (cleanup (window new)) |}
  else new.

(** The first render: nothing is being dragged. *)
Definition mount (overlay : TextOverlayState.t) : State :=
  let s := {| isDragging := false;
              dragStartPos := mkDragStartPos 0 0 0 0;
              textOverlay := overlay;
              window := [] |} in
  {| isDragging := isDragging s;
     dragStartPos := dragStartPos s;
     textOverlay := textOverlay s;
     window := effect s (window s) |}.

(** The component is removed: the cleanup of the last effect runs. *)
Definition unmount (s : State) : State :=
  {| isDragging := isDragging s;
     dragStartPos := dragStartPos s;
     textOverlay := textOverlay s;
     window := cleanup (window s) |}.

(** What the browser delivers.  The element events carry the rectangles of
    the two refs at that moment; a window event reaches a handler only
    while that handler is registered. *)
Inductive Event : Type :=
| MouseDown (container textEl : option DOMRect.t) (e : MouseEvent.t)
| TouchStart (container textEl : option DOMRect.t) (e : TouchEvent.t)
| WindowMouseMove (container : option DOMRect.t) (e : MouseEvent.t)
| WindowTouchMove (container : option DOMRect.t) (e : TouchEvent.t)
| WindowMouseUp
| WindowTouchEnd.

Definition dispatch (type callback : string) (h : State -> State)
    (s : State) : State :=
  if Window.registered (type, callback) (window s) then commit s (h s) else s.

Definition step (s : State) (ev : Event) : State :=
  match ev with
  | MouseDown c t e => commit s (onMouseDown c t e s)
  | TouchStart c t e => commit s (onTouchStart c t e s)
  | WindowMouseMove c e => dispatch "mousemove" "onMouseMove" (onMouseMove c e) s
  | WindowTouchMove c e => dispatch "touchmove" "onTouchMove" (onTouchMove c e) s
  | WindowMouseUp => dispatch "mouseup" "handleDragEnd" handleDragEnd s
  | WindowTouchEnd => dispatch "touchend" "handleDragEnd" handleDragEnd s
  end.

Definition run (evs : list Event) (s : State) : State := fold_left step evs s.

(** The bounding rectangle of the rendered text element (lines 98-101):
    [left: x%; top: y%] place the element's corner at that percentage of
    the container and [transform: translate(-50%, -50%)] moves it back by
    half of its own [w] by [h] box, so the percentages name its centre. *)
Definition rendered (containerRect : DOMRect.t) (overlay : TextOverlayState.t)
    (w h : Q) : DOMRect.t :=
  {| DOMRect.left :=
       DOMRect.left containerRect
       + (TextOverlayState.x overlay / 100) * DOMRect.width containerRect
       - w / 2;
     DOMRect.top :=
       DOMRect.top containerRect
       + (TextOverlayState.y overlay / 100) * DOMRect.height containerRect
       - h / 2;
     DOMRect.width := w;
     DOMRect.height := h |}.

End DraggableText.

(** ** CropBox *)

Module CropBox.

(** [dragStart.current = { mouseX, mouseY, ...cropState }]. *)
Record DragStart : Type := mkDragStart
  { mouseX : Q; mouseY : Q; x : Q; y : Q; width : Q; height : Q }.

Record State : Type := mkState
  { isDragging : bool;
    resizeHandle : option string;
    dragStart : DragStart;
    (** the [cropState] prop, written through [setCropState] *)
    cropState : CropState.t;
    window : Window.t }.

Definition handles : list string :=
  ["top-left"; "top-right"; "bottom-left"; "bottom-right";
   "top"; "bottom"; "left"; "right"]%string.

(** [handleMouseDown(e, handle)]; there is no test of [e.button]. *)
Definition handleMouseDown (e : MouseEvent.t) (handle : option string)
    (s : State) : State :=
  {| isDragging := negb (JS.truthy handle);
     resizeHandle := handle;
     dragStart :=
       {| mouseX := MouseEvent.clientX e;
          mouseY := MouseEvent.clientY e;
          x := CropState.x (cropState s);
          y := CropState.y (cropState s);
          width := CropState.width (cropState s);
          height := CropState.height (cropState s) |};
     cropState := cropState s;
     window := window s |}.

(** Lines 151-161 of [handleMouseMove]: the rectangle before clamping, from
    the snapshot and the percentage deltas. *)
Definition candidate (dragging : bool) (handle : option string)
    (d : DragStart) (dx dy : Q) : CropState.t :=
  if dragging then
    CropState.mk (x d + dx) (y d + dy) (width d) (height d)
  else
    match handle with
    | Some h =>
        if JS.truthy handle then
          let w1 := if JS.includes h "right" then width d + dx else width d in
          let w2 := if JS.includes h "left" then w1 - dx else w1 in
          let x2 := if JS.includes h "left" then x d + dx else x d in
          let h1 := if JS.includes h "bottom" then height d + dy else height d in
          let h2 := if JS.includes h "top" then h1 - dy else h1 in
          let y2 := if JS.includes h "top" then y d + dy else y d in
          CropState.mk x2 y2 w2 h2
        else CropState.mk (x d) (y d) (width d) (height d)
    | None => CropState.mk (x d) (y d) (width d) (height d)
    end.

(** Lines 163-168: size first, then position against the clamped size. *)
Definition clamp (c : CropState.t) : CropState.t :=
  let width := Qmax 5 (Qmin 100 (CropState.width c)) in
  let height := Qmax 5 (Qmin 100 (CropState.height c)) in
  let x := Qmax 0 (Qmin (100 - width) (CropState.x c)) in
  let y := Qmax 0 (Qmin (100 - height) (CropState.y c)) in
  CropState.mk x y width height.

(** The percentage deltas of lines 148-149. *)
Definition delta (rect : DOMRect.t) (e : MouseEvent.t) (d : DragStart) : Q * Q :=
  (((MouseEvent.clientX e - mouseX d) / DOMRect.width rect) * 100,
   ((MouseEvent.clientY e - mouseY d) / DOMRect.height rect) * 100).

(** [handleMouseMove(e)]; [container] is [containerRef.current]. *)
Definition handleMouseMove (container : option DOMRect.t) (e : MouseEvent.t)
    (s : State) : State :=
  match container with
  | None => s
  | Some rect =>
      let '(dx, dy) := delta rect e (dragStart s) in
      let c := candidate (isDragging s) (resizeHandle s) (dragStart s) dx dy in
      {| isDragging := isDragging s;
         resizeHandle := resizeHandle s;
         dragStart := dragStart s;
         cropState := clamp c;
         window := window s |}
  end.

Definition handleMouseUp (s : State) : State :=
  {| isDragging := false;
     resizeHandle := None;
     dragStart := dragStart s;
     cropState := cropState s;
     window := window s |}.

(** The gesture flag the effect of lines 179-188 tests. *)
Definition active (s : State) : bool :=
  isDragging s || JS.truthy (resizeHandle s).

Definition effect (s : State) (w : Window.t) : Window.t :=
  if active s then
    Window.addEventListener "mouseup" "handleMouseUp"
      (Window.addEventListener "mousemove" "handleMouseMove" w)
  else w.

Definition cleanup (w : Window.t) : Window.t :=
  Window.removeEventListener "mouseup" "handleMouseUp"
    (Window.removeEventListener "mousemove" "handleMouseMove" w).

Definition same_handle (a b : option string) : bool :=
  match a, b with
  | None, None => true
  | Some u, Some v => String.eqb u v
  | _, _ => false
  end.

(** The dependencies are [isDragging], [resizeHandle], [handleMouseMove]
    (recreated when one of the two changes) and [handleMouseUp]. *)
Definition deps_changed (old new : State) : bool :=
  negb (Bool.eqb (isDragging old) (isDragging new))
  || negb (same_handle (resizeHandle old) (resizeHandle new)).

Definition commit (old new : State) : State :=
  if deps_changed old new then
    {| isDragging := isDragging new;
       resizeHandle := resizeHandle new;
       dragStart := dragStart new;
       cropState := cropState new;
       window := effect new (cleanup (window new)) |}
  else new.

(** The first render; [dragStart] starts as [{ mouseX: 0, mouseY: 0,
    ...cropState }]. *)
Definition mount (crop : CropState.t) : State :=
  let s := {| isDragging := false;
              resizeHandle := None;
              dragStart :=
                mkDragStart 0 0 (CropState.x crop) (CropState.y crop)
                  (CropState.width crop) (CropState.height crop);
              cropState := crop;
              window := [] |} in
  {| isDragging := isDragging s;
     resizeHandle := resizeHandle s;
     dragStart := dragStart s;
     cropState := cropState s;
     window := effect s (window s) |}.

(** The component is removed: the cleanup of the last effect runs. *)
Definition unmount (s : State) : State :=
  {| isDragging := isDragging s;
     resizeHandle := resizeHandle s;
     dragStart := dragStart s;
     cropState := cropState s;
     window := cleanup (window s) |}.

(** [MouseDown e None] is a press on the box, [MouseDown e (Some h)] a
    press on the handle [h]. *)
Inductive Event : Type :=
| MouseDown (e : MouseEvent.t) (handle : option string)
| WindowMouseMove (container : option DOMRect.t) (e : MouseEvent.t)
| WindowMouseUp.

Definition dispatch (type callback : string) (h : State -> State)
    (s : State) : State :=
  if Window.registered (type, callback) (window s) then commit s (h s) else s.

Definition step (s : State) (ev : Event) : State :=
  match ev with
  | MouseDown e handle => commit s (handleMouseDown e handle s)
  | WindowMouseMove c e =>
      dispatch "mousemove" "handleMouseMove" (handleMouseMove c e) s
  | WindowMouseUp => dispatch "mouseup" "handleMouseUp" handleMouseUp s
  end.

Definition run (evs : list Event) (s : State) : State := fold_left step evs s.

(** A move event whose container has an area. *)
Definition well_sized (ev : Event) : Prop :=
  match ev with
  | WindowMouseMove (Some rect) _ =>
      0 < DOMRect.width rect /\ 0 < DOMRect.height rect
  | _ => True
  end.

End CropBox.

(** ** ImageComparator *)

Module ImageComparator.

Record State : Type := mkState
  { sliderPosition : Q;
    (** [isDragging] is a ref here, not a state cell *)
    isDragging : bool;
    window : Window.t }.

Definition moveSlider (container : option DOMRect.t) (clientX : Q)
    (s : State) : State :=
  match container with
  | None => s
  | Some rect =>
      let x := Qmax 0 (Qmin (clientX - DOMRect.left rect) (DOMRect.width rect)) in
      let percent := (x / DOMRect.width rect) * 100 in
      {| sliderPosition := percent;
         isDragging := isDragging s;
         window := window s |}
  end.

(** [handleInteractionStart(e)] with the [clientX] of the mouse event or of
    the first touch: the slider jumps to the pointer at once. *)
Definition handleInteractionStart (container : option DOMRect.t)
    (clientX : Q) (s : State) : State :=
  moveSlider container clientX
    {| sliderPosition := sliderPosition s;
       isDragging := true;
       window := window s |}.

Definition handleInteractionMove (container : option DOMRect.t)
    (clientX : Q) (s : State) : State :=
  if isDragging s then moveSlider container clientX s else s.

Definition handleInteractionEnd (s : State) : State :=
  {| sliderPosition := sliderPosition s;
     isDragging := false;
     window := window s |}.

(** The effect of lines 273-295 has no dependency: it runs once, on mount,
    whatever [isDragging] holds. *)
Definition effect (w : Window.t) : Window.t :=
  Window.addEventListener "touchend" "handleInteractionEnd"
    (Window.addEventListener "mouseup" "handleInteractionEnd"
       (Window.addEventListener "touchmove" "handleInteractionMove"
          (Window.addEventListener "mousemove" "handleInteractionMove" w))).

(** Runs when the component unmounts. *)
Definition cleanup (w : Window.t) : Window.t :=
  Window.removeEventListener "touchend" "handleInteractionEnd"
    (Window.removeEventListener "mouseup" "handleInteractionEnd"
       (Window.removeEventListener "touchmove" "handleInteractionMove"
          (Window.removeEventListener "mousemove" "handleInteractionMove" w))).

Definition mount : State :=
  {| sliderPosition := 50; isDragging := false; window := effect [] |}.

Definition unmount (s : State) : State :=
  {| sliderPosition := sliderPosition s;
     isDragging := isDragging s;
     window := cleanup (window s) |}.

(** A press or a touch start on the comparator, and the window events. *)
Inductive Event : Type :=
| InteractionStart (container : option DOMRect.t) (clientX : Q)
| WindowMove (container : option DOMRect.t) (clientX : Q)
| WindowEnd.

Definition step (s : State) (ev : Event) : State :=
  match ev with
  | InteractionStart c clientX => handleInteractionStart c clientX s
  | WindowMove c clientX =>
      if Window.registered ("mousemove", "handleInteractionMove")%string (window s)
      then handleInteractionMove c clientX s else s
  | WindowEnd =>
      if Window.registered ("mouseup", "handleInteractionEnd")%string (window s)
      then handleInteractionEnd s else s
  end.

Definition run (evs : list Event) (s : State) : State := fold_left step evs s.

(** An event whose container has a width. *)
Definition well_sized (ev : Event) : Prop :=
  match ev with
  | InteractionStart (Some rect) _ | WindowMove (Some rect) _ =>
      0 < DOMRect.width rect
  | _ => True
  end.

End ImageComparator.

(** ** The canvas the exporter draws on *)

Module Canvas.

(** A pixel: colour channels in [0,255], [alpha] in [0,1]. *)
Record Pixel : Type := mkPixel { red : Q; green : Q; blue : Q; alpha : Q }.

Definition transparent : Pixel := mkPixel 0 0 0 0.

(** The colour of ['#FFFFFF']. *)
Definition white : Pixel := mkPixel 255 255 255 1.

Definition same_pixel (p q : Pixel) : Prop :=
  red p == red q /\ green p == green q /\ blue p == blue q /\ alpha p == alpha q.

Definition Bitmap : Type := Z -> Z -> Pixel.

(** The default compositing operation of a 2D context. *)
Definition source_over (src dst : Pixel) : Pixel :=
  let keep := alpha dst * (1 - alpha src) in
  let out := alpha src + keep in
  if Qeq_bool out 0 then transparent
  else mkPixel ((red src * alpha src + red dst * keep) / out)
               ((green src * alpha src + green dst * keep) / out)
               ((blue src * alpha src + blue dst * keep) / out)
               out.

Record t : Type := mk
  { width : Z; height : Z; fillStyle : Pixel;
    imageSmoothingQuality : string; bitmap : Bitmap }.

(** [document.createElement('canvas')]: 300 by 150, transparent. *)
Definition create : t := mk 300 150 (mkPixel 0 0 0 1) "low" (fun _ _ => transparent).

(** Assigning a dimension clears the bitmap. *)
Definition set_width (w : Z) (c : t) : t :=
  mk w (height c) (fillStyle c) (imageSmoothingQuality c) (fun _ _ => transparent).

Definition set_height (h : Z) (c : t) : t :=
  mk (width c) h (fillStyle c) (imageSmoothingQuality c) (fun _ _ => transparent).

Definition set_fillStyle (p : Pixel) (c : t) : t :=
  mk (width c) (height c) p (imageSmoothingQuality c) (bitmap c).

Definition set_imageSmoothingQuality (q : string) (c : t) : t :=
  mk (width c) (height c) (fillStyle c) q (bitmap c).

Definition within (x y w h i j : Z) : bool :=
  ((x <=? i) && (i <? x + w) && (y <=? j) && (j <? y + h))%Z.

Definition fillRect (x y w h : Z) (c : t) : t :=
  mk (width c) (height c) (fillStyle c) (imageSmoothingQuality c)
     (fun i j =>
        if within x y w h i j then source_over (fillStyle c) (bitmap c i j)
        else bitmap c i j).

(** [drawImage(image, dx, dy, dw, dh)]; [scaled] is the image resampled to
    [dw] by [dh] pixels. *)
Definition drawImage (scaled : Bitmap) (dx dy dw dh : Z) (c : t) : t :=
  mk (width c) (height c) (fillStyle c) (imageSmoothingQuality c)
     (fun i j =>
        if within dx dy dw dh i j
        then source_over (scaled (i - dx)%Z (j - dy)%Z) (bitmap c i j)
        else bitmap c i j).

End Canvas.

(** A decoded image: its natural size and, for every target size, the bitmap
    the browser's scaler produces for it. *)
Module Image.
Record t : Type := mk
  { naturalWidth : Z; naturalHeight : Z; resample : Z -> Z -> Canvas.Bitmap }.
End Image.

(** ** DownloadModal *)

Inductive Format : Type := png | jpeg.

Definition format_name (f : Format) : string :=
  match f with png => "png" | jpeg => "jpeg" end.

Module DownloadOptions.
Record t : Type := mk { scale : Z; format : Format; quality : Z }.
End DownloadOptions.

Module DownloadModal.

Record State : Type := mkState { format : Format; quality : Z; scale : Z }.

Definition initial : State := mkState png 90 1.

(** [handleDownloadClick]: [isDownloading] and [onDownload] are props. *)
Definition handleDownloadClick {S : Type} (isDownloading : bool)
    (onDownload : DownloadOptions.t -> S -> S) (m : State) (s : S) : S :=
  if isDownloading then s
  else onDownload (DownloadOptions.mk (scale m) (format m) (quality m)) s.

(** The [isOpen] prop (the host's [isDownloadModalOpen]) and the window
    listeners of the modal. *)
Record Host : Type := mkHost { isOpen : bool; window : Window.t }.

(** [onClose] as the host passes it: [() => setIsDownloadModalOpen(false)]. *)
Definition onClose (h : Host) : Host := mkHost false (window h).

(** [handleKeyDown(e)] of the effect of lines 359-367. *)
Definition handleKeyDown (key : string) (h : Host) : Host :=
  if String.eqb key "Escape" then onClose h else h.

Definition effect (h : Host) (w : Window.t) : Window.t :=
  if isOpen h then Window.addEventListener "keydown" "handleKeyDown" w else w.

Definition cleanup (w : Window.t) : Window.t :=
  Window.removeEventListener "keydown" "handleKeyDown" w.

(** The dependencies are [isOpen] and [onClose]; the host makes a new
    [onClose] at each of its renders, so the effect runs again after every
    update of the host. *)
Definition commit (new : Host) : Host :=
  mkHost (isOpen new) (effect new (cleanup (window new))).

Definition mount : Host := mkHost false (effect (mkHost false []) []).

(** The download button of the host opens the modal, a click on the
    backdrop or on the cross closes it, and a key goes to the window. *)
Inductive HostEvent : Type :=
| OpenClick
| CloseClick
| WindowKeyDown (key : string).

Definition host_step (h : Host) (ev : HostEvent) : Host :=
  match ev with
  | OpenClick => commit (mkHost true (window h))
  | CloseClick => commit (onClose h)
  | WindowKeyDown key =>
      if Window.registered ("keydown", "handleKeyDown")%string (window h)
      then commit (handleKeyDown key h) else h
  end.

Definition host_run (evs : list HostEvent) (h : Host) : Host :=
  fold_left host_step evs h.

End DownloadModal.

(** ** RightPanel *)

Inductive AppMode : Type := CREATE | EDIT | RENDER | VIDEO.

Inductive EditFunction : Type :=
  ADD_REMOVE | RETOUCH | STYLE | COMPOSE | TEXT_OVERLAY | CROP.

Module Transform.
Record t : Type := mk { scale : Q; x : Q; y : Q }.
End Transform.

Module ImageMetrics.
Record t : Type := mk { width : Q; height : Q; initialX : Q; initialY : Q }.
End ImageMetrics.

Module PanStart.
Record t : Type := mk { startX : Q; startY : Q; initialX : Q; initialY : Q }.
End PanStart.

Module WheelEvent.
Record t : Type := mk { clientX : Q; clientY : Q; deltaY : Q }.
End WheelEvent.

Module RightPanel.

Record Props : Type := mkProps
  { generatedImages : option (list string);
    generatedVideoUrl : option string;
    comparisonImage : option string;
    mode : AppMode;
    editFunction : EditFunction;
    isMaskingActive : bool;
    selectedIndex : nat;
    showComparatorProp : bool;
    t : string -> string }.

(** [generatedImages?.[selectedIndex] ?? null]. *)
Definition currentImage (p : Props) : option string :=
  match generatedImages p with
  | Some images => nth_error images (selectedIndex p)
  | None => None
  end.

Definition hasResult (p : Props) : option string :=
  JS.or_else (currentImage p) (generatedVideoUrl p).

Definition isClientSideToolActive (p : Props) : bool :=
  match editFunction p with
  | TEXT_OVERLAY | CROP => true
  | _ => false
  end.

Definition showComparator (p : Props) : bool :=
  showComparatorProp p && JS.truthy (comparisonImage p)
  && JS.truthy (currentImage p)
  && negb (isClientSideToolActive p) && negb (isMaskingActive p).

Definition canZoomPan (p : Props) : bool :=
  JS.truthy (hasResult p) && negb (JS.truthy (generatedVideoUrl p))
  && negb (showComparator p).

(** *** Zoom and pan *)

(** The state cells and the ref behind zooming and panning. *)
Record View : Type := mkView
  { transform : Transform.t;
    initialImageMetrics : ImageMetrics.t;
    isPanning : bool;
    panStart : PanStart.t;
    window : Window.t }.

Definition setTransform (tr : Transform.t) (s : View) : View :=
  mkView tr (initialImageMetrics s) (isPanning s) (panStart s) (window s).

Definition setIsPanning (b : bool) (s : View) : View :=
  mkView (transform s) (initialImageMetrics s) b (panStart s) (window s).

(** What [updateFit] reads of the [img] element and of the container. *)
Record ImgElement : Type := mkImg
  { complete : bool; naturalWidth : Z; naturalHeight : Z }.

Record Container : Type := mkContainer { clientWidth : Z; clientHeight : Z }.

Definition updateFit (img : option ImgElement) (container : option Container)
    (s : View) : View :=
  match img, container with
  | Some i, Some c =>
      if negb (complete i) || (naturalWidth i =? 0)%Z then s
      else
        let cRatio := inject_Z (clientWidth c) / inject_Z (clientHeight c) in
        let iRatio := inject_Z (naturalWidth i) / inject_Z (naturalHeight i) in
        let '(width, height) :=
          if negb (Qle_bool cRatio iRatio) then
            let height := inject_Z (clientHeight c) in
            (height * iRatio, height)
          else
            let width := inject_Z (clientWidth c) in
            (width, width / iRatio) in
        let left := (inject_Z (clientWidth c) - width) / 2 in
        let top := 0 in
        mkView (Transform.mk 1 left top)
               (ImageMetrics.mk width height left top)
               (isPanning s) (panStart s) (window s)
  | _, _ => s
  end.

Definition handleResetTransform (s : View) : View :=
  setTransform
    (Transform.mk 1 (ImageMetrics.initialX (initialImageMetrics s))
                    (ImageMetrics.initialY (initialImageMetrics s))) s.

Definition isTransformed (p : Props) (s : View) : bool :=
  canZoomPan p
  && (negb (Qeq_bool (Transform.scale (transform s)) 1)
      || negb (Qeq_bool (Transform.x (transform s))
                        (ImageMetrics.initialX (initialImageMetrics s)))
      || negb (Qeq_bool (Transform.y (transform s))
                        (ImageMetrics.initialY (initialImageMetrics s)))).

Definition zoomIntensity : Q := 0.001.

(** [handleWheel(e)]; [container] is the bounding rectangle of
    [imageContainerRef.current]. *)
Definition handleWheel (p : Props) (container : option DOMRect.t)
    (e : WheelEvent.t) (s : View) : View :=
  if negb (canZoomPan p) then s
  else
    match container with
    | None => s
    | Some rectContainer =>
        let scale := Transform.scale (transform s) in
        let x := Transform.x (transform s) in
        let y := Transform.y (transform s) in
        let mouseX := WheelEvent.clientX e - DOMRect.left rectContainer in
        let mouseY := WheelEvent.clientY e - DOMRect.top rectContainer in
        let imageX := (mouseX - x) / scale in
        let imageY := (mouseY - y) / scale in
        let newScale :=
          Qmax 0.5 (Qmin 10 (scale - WheelEvent.deltaY e * zoomIntensity)) in
        let newX := mouseX - imageX * newScale in
        let newY := mouseY - imageY * newScale in
        setTransform (Transform.mk newScale newX newY) s
    end.

(** [handleMouseDown(e)] of the pan surface; [onTool] tells whether
    [target.closest('.draggable-text, .crop-handle, .text-delete-button')]
    found an element. *)
Definition handleMouseDown (p : Props) (onTool : bool) (e : MouseEvent.t)
    (s : View) : View :=
  if negb (canZoomPan p) || negb (MouseEvent.button e =? 0)%Z then s
  else if onTool then s
  else
    mkView (transform s) (initialImageMetrics s) true
           (PanStart.mk (MouseEvent.clientX e) (MouseEvent.clientY e)
                        (Transform.x (transform s)) (Transform.y (transform s)))
           (window s).

(** The listeners of the effect of lines 617-643. *)
Definition handleMouseMove (e : MouseEvent.t) (s : View) : View :=
  if isPanning s then
    let dx := MouseEvent.clientX e - PanStart.startX (panStart s) in
    let dy := MouseEvent.clientY e - PanStart.startY (panStart s) in
    setTransform
      (Transform.mk (Transform.scale (transform s))
                    (PanStart.initialX (panStart s) + dx)
                    (PanStart.initialY (panStart s) + dy)) s
  else s.

Definition handleMouseUp (s : View) : View := setIsPanning false s.

(** *** Export *)

(** What [canvas.toDataURL(mimeType, quality / 100)] encodes. *)
Record DataURL : Type := mkDataURL
  { mimeType : string; encoderQuality : Q; content : Canvas.t }.

(** The anchor element that is clicked. *)
Record Link : Type := mkLink { href : DataURL; download : string }.

(** What a call of [handleDownloadImage] holds on to while its image loads:
    its options, the [src] it gave the image and the [t] of its render. *)
Record Job : Type := mkJob
  { options : DownloadOptions.t; src : string; translate : string -> string }.

(** The state cell [isProcessingDownload], the exports that wait for their
    image to load, and what the user has seen: the links clicked and the
    alerts shown, oldest first. *)
Record ExportState : Type := mkExport
  { isProcessingDownload : bool;
    pending : list Job;
    clicked : list Link;
    alerts : list string }.

Definition setIsProcessingDownload (b : bool) (s : ExportState) : ExportState :=
  mkExport b (pending s) (clicked s) (alerts s).

(** What the browser does with the export once the image settles. *)
Record Browser : Type := mkBrowser
  { (** [canvas.getContext('2d')] returned a context *)
    context2d : bool;
    (** an exception thrown by the drawing or encoding calls *)
    drawingError : option string }.

Inductive ImageOutcome : Type :=
| Loaded (image : Image.t)
| LoadError (event : string).

(** How the promise of lines 657-689 settles. *)
Inductive Settled : Type :=
| Resolved (link : Link)
| Rejected (message : string).

(** Lines 660-670: the canvas sized and, for jpeg, filled. *)
Definition prepared (options : DownloadOptions.t) (image : Image.t) : Canvas.t :=
  let scale := DownloadOptions.scale options in
  let canvas := Canvas.create in
  let canvas := Canvas.set_width (Image.naturalWidth image * scale) canvas in
  let canvas := Canvas.set_height (Image.naturalHeight image * scale) canvas in
  match DownloadOptions.format options with
  | jpeg =>
      let canvas := Canvas.set_fillStyle Canvas.white canvas in
      Canvas.fillRect 0 0 (Canvas.width canvas) (Canvas.height canvas) canvas
  | png => canvas
  end.

(** Lines 672-673: the canvas as it is when it is encoded. *)
Definition drawn (options : DownloadOptions.t) (image : Image.t) : Canvas.t :=
  let canvas := prepared options image in
  let canvas := Canvas.set_imageSmoothingQuality "high" canvas in
  Canvas.drawImage
    (Image.resample image (Canvas.width canvas) (Canvas.height canvas))
    0 0 (Canvas.width canvas) (Canvas.height canvas) canvas.

(** [image.onload]. *)
Definition onload (browser : Browser) (options : DownloadOptions.t)
    (image : Image.t) : Settled :=
  if negb (context2d browser) then
    Rejected "Canvas context could not be created."
  else
    match drawingError browser with
    | Some message => Rejected message
    | None =>
        let format := DownloadOptions.format options in
        let mimeType := ("image/" ++ format_name format)%string in
        let dataUrl :=
          mkDataURL mimeType (inject_Z (DownloadOptions.quality options) / 100)
                    (drawn options image) in
        Resolved
          (mkLink dataUrl
             ("ai_image_studio_download." ++ format_name format)%string)
    end.

(** [image.onerror]. *)
Definition onerror (event : string) : Settled :=
  Rejected ("Failed to load image for processing: " ++ event)%string.

(** [handleDownloadImage(options)] up to its [await]. *)
Definition handleDownloadImage (p : Props) (options : DownloadOptions.t)
    (s : ExportState) : ExportState :=
  if isProcessingDownload s || negb (JS.truthy (currentImage p)) then s
  else
    match currentImage p with
    | Some image =>
        let job := mkJob options ("data:image/png;base64," ++ image)%string (t p) in
        mkExport true (pending s ++ [job]) (clicked s) (alerts s)
    | None => s
    end.

(** [handleDownloadImage] from its [await] on, for the export that has
    waited longest: the link is clicked or the [catch] block alerts, and
    the [finally] block clears the flag. *)
Definition settle (browser : Browser) (outcome : ImageOutcome)
    (s : ExportState) : ExportState :=
  match pending s with
  | [] => s
  | job :: rest =>
      let settled :=
        match outcome with
        | Loaded image => onload browser (options job) image
        | LoadError event => onerror event
        end in
      let s :=
        match settled with
        | Resolved link =>
            mkExport (isProcessingDownload s) rest (clicked s ++ [link]) (alerts s)
        | Rejected message =>
            mkExport (isProcessingDownload s) rest (clicked s)
              (alerts s
               ++ [(translate job "errorOccurred" ++ ": " ++ message)%string])
        end in
      setIsProcessingDownload false s
  end.

(** The export button of the modal is pressed, [handleDownloadImage] is
    called directly, or the image of the waiting export settles. *)
Inductive ExportEvent : Type :=
| ModalClick (p : Props) (m : DownloadModal.State)
| Invoke (p : Props) (options : DownloadOptions.t)
| Settle (browser : Browser) (outcome : ImageOutcome).

Definition export_step (s : ExportState) (ev : ExportEvent) : ExportState :=
  match ev with
  | ModalClick p m =>
      DownloadModal.handleDownloadClick (isProcessingDownload s)
        (handleDownloadImage p) m s
  | Invoke p options => handleDownloadImage p options s
  | Settle browser outcome => settle browser outcome s
  end.

Definition export_initial : ExportState := mkExport false [] [] [].

Definition export_run (evs : list ExportEvent) (s : ExportState) : ExportState :=
  fold_left export_step evs s.

(** The number of exports that wait for their image. *)
Definition in_flight (s : ExportState) : nat := length (pending s).

(** The flag is set exactly while one export waits. *)
Definition consistent (s : ExportState) : Prop :=
  (isProcessingDownload s = true /\ in_flight s = 1%nat)
  \/ (isProcessingDownload s = false /\ in_flight s = 0%nat).

(** *** What is shown *)

(** [showTextOverlay], [showCropBox] and [showMaskingCanvas]; the text of
    the overlay is a prop of its own. *)
Definition showTextOverlay (p : Props) (textOverlay : TextOverlayState.t) : bool :=
  match mode p, editFunction p with
  | EDIT, TEXT_OVERLAY =>
      JS.truthy (Some (TextOverlayState.text textOverlay))
      && JS.truthy (currentImage p)
  | _, _ => false
  end.

Definition showCropBox (p : Props) : bool :=
  match mode p, editFunction p with
  | EDIT, CROP => JS.truthy (currentImage p)
  | _, _ => false
  end.

Definition showMaskingCanvas (p : Props) : bool :=
  match mode p, editFunction p with
  | EDIT, ADD_REMOVE => JS.truthy (currentImage p) && isMaskingActive p
  | _, _ => false
  end.

(** *** The loading message *)

Definition videoLoadingMessages : list string :=
  ["Aquecendo os motores de renderização...";
   "Coreografando os pixels...";
   "Compilando a animação...";
   "Adicionando os toques finais...";
   "Um momento, a magia está acontecendo..."]%string.

(** The updater the interval of lines 511-517 passes to
    [setCurrentLoadingMessage]; [None] is [undefined]. *)
Definition nextLoadingMessage (prevMessage : string) : option string :=
  let currentIndex := JS.indexOf videoLoadingMessages prevMessage in
  let nextIndex :=
    Z.rem (currentIndex + 1) (Z.of_nat (length videoLoadingMessages)) in
  if (nextIndex <? 0)%Z then None
  else nth_error videoLoadingMessages (Z.to_nat nextIndex).

(** *** The view as a machine *)

(** The effect of lines 617-643. *)
Definition pan_effect (s : View) (w : Window.t) : Window.t :=
  if isPanning s then
    Window.addEventListener "mouseleave" "handleMouseUp"
      (Window.addEventListener "mouseup" "handleMouseUp"
         (Window.addEventListener "mousemove" "handleMouseMove" w))
  else w.

Definition pan_cleanup (w : Window.t) : Window.t :=
  Window.removeEventListener "mouseleave" "handleMouseUp"
    (Window.removeEventListener "mouseup" "handleMouseUp"
       (Window.removeEventListener "mousemove" "handleMouseMove" w)).

(** Its only dependency is [isPanning]. *)
Definition view_commit (old new : View) : View :=
  if negb (Bool.eqb (isPanning old) (isPanning new)) then
    mkView (transform new) (initialImageMetrics new) (isPanning new)
           (panStart new) (pan_effect new (pan_cleanup (window new)))
  else new.

(** The first render. *)
Definition view_initial : View :=
  mkView (Transform.mk 1 0 0) (ImageMetrics.mk 0 0 0 0) false
         (PanStart.mk 0 0 0 0) [].

(** The wheel and the press on the image, the window events of a pan, the
    fit (image loaded, image changed or container resized) and the reset
    button. *)
Inductive ViewEvent : Type :=
| Wheel (p : Props) (container : option DOMRect.t) (e : WheelEvent.t)
| MouseDown (p : Props) (onTool : bool) (e : MouseEvent.t)
| WindowMouseMove (e : MouseEvent.t)
| WindowMouseUp
| WindowMouseLeave
| Fit (img : option ImgElement) (container : option Container)
| Reset.

Definition view_dispatch (type callback : string) (h : View -> View)
    (s : View) : View :=
  if Window.registered (type, callback) (window s) then view_commit s (h s) else s.

Definition view_step (s : View) (ev : ViewEvent) : View :=
  match ev with
  | Wheel p container e => view_commit s (handleWheel p container e s)
  | MouseDown p onTool e => view_commit s (handleMouseDown p onTool e s)
  | WindowMouseMove e =>
      view_dispatch "mousemove" "handleMouseMove" (handleMouseMove e) s
  | WindowMouseUp => view_dispatch "mouseup" "handleMouseUp" handleMouseUp s
  | WindowMouseLeave => view_dispatch "mouseleave" "handleMouseUp" handleMouseUp s
  | Fit img container => view_commit s (updateFit img container s)
  | Reset => view_commit s (handleResetTransform s)
  end.

Definition view_run (evs : list ViewEvent) (s : View) : View :=
  fold_left view_step evs s.

(** A fit whose image and container have a height. *)
Definition fit_sized (ev : ViewEvent) : Prop :=
  match ev with
  | Fit (Some i) (Some c) => (0 < naturalHeight i)%Z /\ (0 < clientHeight c)%Z
  | _ => True
  end.

(** *** A press on the text overlay *)

(** [element.closest(selector)] for a selector that lists class names:
    whether the element or one of its ancestors carries one of them.
    [path] holds the [className] of the element and of its ancestors,
    innermost first. *)
Definition closest (classes : list string) (path : list string) : bool :=
  existsb
    (fun className =>
       existsb (fun c => existsb (String.eqb c) classes) (JS.classList className))
    path.

(** The class names of ['.draggable-text, .crop-handle, .text-delete-button']. *)
Definition toolSelector : list string :=
  ["draggable-text"; "crop-handle"; "text-delete-button"]%string.

(** The [className] of the text element (line 97) and of its ancestors
    inside this component (lines 821, 807, 794, 793 and 728). *)
Definition textPath : list string :=
  ["absolute p-2 cursor-move select-none group/text border-2 border-dashed border-blue-500 rounded-md bg-black/40 shadow-lg";
   "absolute top-0 left-0 w-full h-full";
   "absolute";
   "image-container flex-grow w-full h-full group relative flex items-start justify-center overflow-hidden";
   "flex flex-col w-full h-full";
   "bg-gray-900 p-4 rounded-lg shadow-lg flex flex-col items-center justify-center w-full h-full relative overflow-hidden"]%string.

(** The text overlay inside the zoomable image. *)
Record Surface : Type := mkSurface
  { overlayState : DraggableText.State; viewState : View }.

(** A mouse-down on the text element: its own [onMouseDown] runs, and,
    since that handler does not stop the propagation, the event reaches
    [handleMouseDown] of the image with the text element as its target.
    [outer] holds the [className] of the ancestors of this component. *)
Definition pressText (p : Props) (outer : list string)
    (container textEl : option DOMRect.t) (e : MouseEvent.t)
    (s : Surface) : Surface :=
  mkSurface
    (DraggableText.commit (overlayState s)
       (DraggableText.onMouseDown container textEl e (overlayState s)))
    (view_commit (viewState s)
       (handleMouseDown p (closest toolSelector (textPath ++ outer)) e
          (viewState s))).

(** A move of the pointer reaches the listeners of both controllers. *)
Definition moveOverSurface (container : option DOMRect.t) (e : MouseEvent.t)
    (s : Surface) : Surface :=
  mkSurface
    (DraggableText.step (overlayState s) (DraggableText.WindowMouseMove container e))
    (view_step (viewState s) (WindowMouseMove e)).

End RightPanel.

(** ** Sample values *)

Module Sample.

(** A result with one image, no video and no comparison. *)
Definition props : RightPanel.Props :=
  RightPanel.mkProps (Some ["iVBOR"%string]) None None CREATE RETOUCH
    false 0 false (fun key => key).

(** A tool container of 1000x500 at the origin of the viewport. *)
Definition container : DOMRect.t := DOMRect.mk 0 0 1000 500.

(** A text centred in the container, drawn in a box of 200x40. *)
Definition overlay : TextOverlayState.t :=
  TextOverlayState.mk "Hello" "#ffffff" 5 "Arial" 50 50.

Definition textBox : DOMRect.t := DraggableText.rendered container overlay 200 40.

(** A press on the centre of the text with [button], one move to [x], [y]
    and the release. *)
Definition text_gesture (button : Z) (x y : Q) : list DraggableText.Event :=
  [DraggableText.MouseDown (Some container) (Some textBox)
     (MouseEvent.mk 500 250 button);
   DraggableText.WindowMouseMove (Some container) (MouseEvent.mk x y button);
   DraggableText.WindowMouseUp].

Definition crop : CropState.t := CropState.mk 10 10 80 80.

End Sample.

(** * Properties *)

(** A window event that finds no listener leaves the state as it is. *)
Ltac when_registered H :=
  try match goal with
      | |- context [Window.registered ?l ?w] =>
          destruct (Window.registered l w); [|exact H]
      end.

(** ** Clamping *)

Lemma clamp_between (lo hi v : Q) :
  lo <= hi -> lo <= Qmax lo (Qmin hi v) <= hi.
Proof.
  intros Hle.
  destruct (Q.min_spec hi v) as [[K E]|[K E]];
    destruct (Q.max_spec lo (Qmin hi v)) as [[L F]|[L F]];
    rewrite F; rewrite ?E in *; lra.
Qed.

Lemma clamp_id (lo hi v : Q) :
  lo <= v <= hi -> Qmax lo (Qmin hi v) == v.
Proof.
  intros [Hlo Hhi].
  rewrite Q.min_r by assumption.
  now rewrite Q.max_r.
Qed.

Lemma crop_clamp_valid (c : CropState.t) : CropState.valid (CropBox.clamp c).
Proof.
  unfold CropState.valid. cbn.
  pose proof (clamp_between 5 100 (CropState.width c)) as Hw.
  pose proof (clamp_between 5 100 (CropState.height c)) as Hh.
  assert (5 <= 100) as H5 by lra.
  specialize (Hw H5). specialize (Hh H5).
  repeat split; try tauto; apply clamp_between; lra.
Qed.

Lemma crop_clamp_fixed (c : CropState.t) :
  5 <= CropState.width c <= 100 ->
  0 <= CropState.x c <= 100 - CropState.width c ->
  CropState.x (CropBox.clamp c) == CropState.x c /\
  CropState.width (CropBox.clamp c) == CropState.width c.
Proof.
  intros Hw Hx. cbn.
  assert (Qmax 5 (Qmin 100 (CropState.width c)) == CropState.width c) as Ew
    by now apply clamp_id.
  split; [|exact Ew].
  rewrite Ew. now apply clamp_id.
Qed.

Lemma crop_clamp_fixed_vertical (c : CropState.t) :
  5 <= CropState.height c <= 100 ->
  0 <= CropState.y c <= 100 - CropState.height c ->
  CropState.y (CropBox.clamp c) == CropState.y c /\
  CropState.height (CropBox.clamp c) == CropState.height c.
Proof.
  intros Hh Hy. cbn.
  assert (Qmax 5 (Qmin 100 (CropState.height c)) == CropState.height c) as Eh
    by now apply clamp_id.
  split; [|exact Eh].
  rewrite Eh. now apply clamp_id.
Qed.

(** ** The crop rectangle *)

(** C1.  Whatever the gesture (move, resize by any handle, or none), the
    snapshot and the pointer position, the rectangle [handleMouseMove] stores
    has its width and height in [5,100], its [x] in [0, 100 - width] and its
    [y] in [0, 100 - height]; the sizes are clamped first and the positions
    are clamped against the clamped sizes. *)
Theorem crop_move_handler_clamped
    (rect : DOMRect.t) (e : MouseEvent.t) (s : CropBox.State) :
  0 < DOMRect.width rect -> 0 < DOMRect.height rect ->
  let d := CropBox.delta rect e (CropBox.dragStart s) in
  let c := CropBox.candidate (CropBox.isDragging s) (CropBox.resizeHandle s)
             (CropBox.dragStart s) (fst d) (snd d) in
  let r := CropBox.cropState (CropBox.handleMouseMove (Some rect) e s) in
  CropState.valid r /\
  CropState.width r = Qmax 5 (Qmin 100 (CropState.width c)) /\
  CropState.height r = Qmax 5 (Qmin 100 (CropState.height c)) /\
  CropState.x r = Qmax 0 (Qmin (100 - CropState.width r) (CropState.x c)) /\
  CropState.y r = Qmax 0 (Qmin (100 - CropState.height r) (CropState.y c)).
Proof.
  intros _ _ d c r.
  assert (r = CropBox.clamp c) as -> by reflexivity.
  split; [apply crop_clamp_valid|].
  repeat split.
Qed.

Lemma crop_move_handler_clamped_witness :
  0 < DOMRect.width Sample.container /\
  0 < DOMRect.height Sample.container /\
  CropState.valid
    (CropBox.cropState
       (CropBox.handleMouseMove (Some Sample.container)
          (MouseEvent.mk 1300 (-300) 0)
          (CropBox.handleMouseDown (MouseEvent.mk 300 200 0)
             (Some "top-left"%string)
             (CropBox.mount Sample.crop)))).
Proof.
  assert (0 < DOMRect.width Sample.container) as Hw by reflexivity.
  assert (0 < DOMRect.height Sample.container) as Hh by reflexivity.
  split; [exact Hw|]. split; [exact Hh|].
  exact (proj1 (crop_move_handler_clamped Sample.container
                  (MouseEvent.mk 1300 (-300) 0)
                  (CropBox.handleMouseDown (MouseEvent.mk 300 200 0)
                     (Some "top-left"%string)
                     (CropBox.mount Sample.crop)) Hw Hh)).
Defined.

(** C3.  In a resize gesture grabbed on one of the eight handles, as long as
    the horizontal clamps leave the candidate rectangle as it is, a handle
    containing "left" keeps the right edge [x + width] of the snapshot and a
    handle containing "right" keeps its [x]; as long as the vertical clamps
    leave it as it is, a handle containing "top" keeps the bottom edge
    [y + height] and a handle containing "bottom" keeps [y]. *)
Theorem crop_resize_anchor_edge
    (h : string) (s0 : CropBox.State) (e0 e : MouseEvent.t) (rect : DOMRect.t) :
  In h CropBox.handles ->
  0 < DOMRect.width rect -> 0 < DOMRect.height rect ->
  let snapshot := CropBox.cropState s0 in
  let s1 := CropBox.handleMouseDown e0 (Some h) s0 in
  let d := CropBox.delta rect e (CropBox.dragStart s1) in
  let c := CropBox.candidate (CropBox.isDragging s1) (CropBox.resizeHandle s1)
             (CropBox.dragStart s1) (fst d) (snd d) in
  let r := CropBox.cropState (CropBox.handleMouseMove (Some rect) e s1) in
  (5 <= CropState.width c <= 100 ->
   0 <= CropState.x c <= 100 - CropState.width c ->
   (JS.includes h "left" = true ->
    CropState.x r + CropState.width r
    == CropState.x snapshot + CropState.width snapshot) /\
   (JS.includes h "right" = true -> CropState.x r == CropState.x snapshot)) /\
  (5 <= CropState.height c <= 100 ->
   0 <= CropState.y c <= 100 - CropState.height c ->
   (JS.includes h "top" = true ->
    CropState.y r + CropState.height r
    == CropState.y snapshot + CropState.height snapshot) /\
   (JS.includes h "bottom" = true -> CropState.y r == CropState.y snapshot)).
Proof.
  intros Hin _ _ snapshot s1 d c r.
  assert (r = CropBox.clamp c) as -> by reflexivity.
  split; intros Hsize Hpos.
  - destruct (crop_clamp_fixed c Hsize Hpos) as [Ex Ew].
    rewrite Ex, Ew. clear Ex Ew Hsize Hpos.
    subst c d s1 snapshot.
    repeat (destruct Hin as [<-|Hin]; [cbn; split; intros Hc; try discriminate Hc; ring|]).
    destruct Hin.
  - destruct (crop_clamp_fixed_vertical c Hsize Hpos) as [Ey Eh].
    rewrite Ey, Eh. clear Ey Eh Hsize Hpos.
    subst c d s1 snapshot.
    repeat (destruct Hin as [<-|Hin]; [cbn; split; intros Hc; try discriminate Hc; ring|]).
    destruct Hin.
Qed.

Lemma crop_resize_anchor_edge_witness :
  In "left"%string CropBox.handles /\
  CropState.x
    (CropBox.cropState
       (CropBox.handleMouseMove (Some Sample.container)
          (MouseEvent.mk 150 100 0)
          (CropBox.handleMouseDown (MouseEvent.mk 100 100 0) (Some "left"%string)
             (CropBox.mount Sample.crop))))
  + CropState.width
      (CropBox.cropState
         (CropBox.handleMouseMove (Some Sample.container)
            (MouseEvent.mk 150 100 0)
            (CropBox.handleMouseDown (MouseEvent.mk 100 100 0) (Some "left"%string)
               (CropBox.mount Sample.crop))))
  == 10 + 80.
Proof.
  assert (In "left"%string CropBox.handles) as Hin by (cbn; tauto).
  split; [exact Hin|].
  assert (0 < DOMRect.width Sample.container) as Hw by reflexivity.
  assert (0 < DOMRect.height Sample.container) as Hh by reflexivity.
  refine (proj1 (proj1 (crop_resize_anchor_edge "left"
                   (CropBox.mount Sample.crop)
                   (MouseEvent.mk 100 100 0) (MouseEvent.mk 150 100 0)
                   Sample.container Hin Hw Hh)
                   _ _) _).
  - split; vm_compute; discriminate.
  - split; vm_compute; discriminate.
  - reflexivity.
Defined.

Lemma crop_commit_cropState (old new : CropBox.State) :
  CropBox.cropState (CropBox.commit old new) = CropBox.cropState new.
Proof. unfold CropBox.commit. now destruct (CropBox.deps_changed old new). Qed.

(** Along any sequence of presses, moves and releases the stored rectangle
    keeps the invariant it started with. *)
Lemma crop_valid_along_gestures (evs : list CropBox.Event) :
  forall s, CropState.valid (CropBox.cropState s) ->
            CropState.valid (CropBox.cropState (CropBox.run evs s)).
Proof.
  induction evs as [|ev evs IH]; intros s Hs; cbn; [exact Hs|].
  apply IH. destruct ev as [e handle|c e|]; cbn [CropBox.step];
    unfold CropBox.dispatch; when_registered Hs;
    rewrite crop_commit_cropState; try exact Hs.
  destruct c as [rect|]; [|exact Hs].
  unfold CropBox.handleMouseMove. destruct (CropBox.delta _ _ _).
  apply crop_clamp_valid.
Qed.

(** ** Zoom and fit *)

(** C2.  When zooming is enabled and the scale lies in [0.5,10], a wheel
    event gives a transform whose scale is the clamp to [0.5,10] of
    [scale - deltaY * 0.001] and whose translation is
    [pointer - image * newScale], where [image] is the image-space point that
    was under the pointer; that same image-space point is under the pointer
    in the new transform. *)
Theorem wheel_zoom_anchored
    (p : RightPanel.Props) (rect : DOMRect.t) (e : WheelEvent.t)
    (s : RightPanel.View) :
  RightPanel.canZoomPan p = true ->
  0.5 <= Transform.scale (RightPanel.transform s) <= 10 ->
  let old := RightPanel.transform s in
  let pointerX := WheelEvent.clientX e - DOMRect.left rect in
  let pointerY := WheelEvent.clientY e - DOMRect.top rect in
  let imageX := (pointerX - Transform.x old) / Transform.scale old in
  let imageY := (pointerY - Transform.y old) / Transform.scale old in
  let new := RightPanel.transform (RightPanel.handleWheel p (Some rect) e s) in
  (0.5 <= Transform.scale new <= 10) /\
  Transform.scale new
  = Qmax 0.5 (Qmin 10 (Transform.scale old - WheelEvent.deltaY e * 0.001)) /\
  Transform.x new == pointerX - imageX * Transform.scale new /\
  Transform.y new == pointerY - imageY * Transform.scale new /\
  (pointerX - Transform.x new) / Transform.scale new == imageX /\
  (pointerY - Transform.y new) / Transform.scale new == imageY.
Proof.
  intros Hzoom Hscale old pointerX pointerY imageX imageY new.
  assert (new
          = Transform.mk
              (Qmax 0.5 (Qmin 10 (Transform.scale old - WheelEvent.deltaY e * 0.001)))
              (pointerX - imageX
                 * Qmax 0.5 (Qmin 10 (Transform.scale old - WheelEvent.deltaY e * 0.001)))
              (pointerY - imageY
                 * Qmax 0.5 (Qmin 10 (Transform.scale old - WheelEvent.deltaY e * 0.001))))
    as Enew.
  { subst new. unfold RightPanel.handleWheel. rewrite Hzoom. reflexivity. }
  clearbody new. subst new. cbn [Transform.scale Transform.x Transform.y].
  set (newScale := Qmax 0.5 (Qmin 10 (Transform.scale old - WheelEvent.deltaY e * 0.001))).
  assert (0.5 <= newScale <= 10) as Hnew by (apply clamp_between; lra).
  split; [exact Hnew|].
  split; [reflexivity|].
  split; [reflexivity|].
  split; [reflexivity|].
  assert (~ newScale == 0) as Hnz by lra.
  split; field; exact Hnz.
Qed.

Lemma wheel_zoom_anchored_witness :
  (0.5 <= 2 <= 10) /\
  Transform.scale
    (RightPanel.transform
       (RightPanel.handleWheel
          Sample.props
          (Some (DOMRect.mk 10 20 800 600))
          (WheelEvent.mk 410 320 (-500))
          (RightPanel.mkView (Transform.mk 2 100 0) (ImageMetrics.mk 800 400 0 0)
             false (PanStart.mk 0 0 0 0) []))) == 2.5.
Proof.
  assert (0.5 <= 2 <= 10) as Hs by (split; vm_compute; discriminate).
  split; [exact Hs|].
  rewrite (proj1 (proj2 (wheel_zoom_anchored
            Sample.props
            (DOMRect.mk 10 20 800 600)
            (WheelEvent.mk 410 320 (-500))
            (RightPanel.mkView (Transform.mk 2 100 0) (ImageMetrics.mk 800 400 0 0)
               false (PanStart.mk 0 0 0 0) [])
            eq_refl Hs))).
  vm_compute. reflexivity.
Defined.

(** C5.  For a container of 800x600 and a loaded image of 1600x800 the fit
    is width 800, height 400, initialX 0, initialY 0 and the transform is
    reset to scale 1, x 0, y 0.  For every loaded image and container (sizes
    not zero), initialX is [(containerW - width) / 2], initialY is 0 and the
    transform is reset to scale 1 at that position. *)
Theorem fit_example_and_centering :
  (forall s : RightPanel.View,
      let s' := RightPanel.updateFit (Some (RightPanel.mkImg true 1600 800))
                  (Some (RightPanel.mkContainer 800 600)) s in
      let m := RightPanel.initialImageMetrics s' in
      let tr := RightPanel.transform s' in
      ImageMetrics.width m == 800 /\ ImageMetrics.height m == 400 /\
      ImageMetrics.initialX m == 0 /\ ImageMetrics.initialY m == 0 /\
      Transform.scale tr == 1 /\ Transform.x tr == 0 /\ Transform.y tr == 0) /\
  (forall (i : RightPanel.ImgElement) (c : RightPanel.Container)
          (s : RightPanel.View),
      RightPanel.complete i = true ->
      (0 < RightPanel.naturalWidth i)%Z -> (0 < RightPanel.naturalHeight i)%Z ->
      (0 < RightPanel.clientWidth c)%Z -> (0 < RightPanel.clientHeight c)%Z ->
      let s' := RightPanel.updateFit (Some i) (Some c) s in
      let m := RightPanel.initialImageMetrics s' in
      ImageMetrics.initialX m
      == (inject_Z (RightPanel.clientWidth c) - ImageMetrics.width m) / 2 /\
      ImageMetrics.initialY m = 0 /\
      RightPanel.transform s'
      = Transform.mk 1 (ImageMetrics.initialX m) (ImageMetrics.initialY m)).
Proof.
  split.
  - intros s. vm_compute. repeat split.
  - intros i c s Hc Hnw _ _ _.
    unfold RightPanel.updateFit. rewrite Hc.
    destruct (Z.eqb_spec (RightPanel.naturalWidth i) 0) as [E|_]; [lia|].
    cbn [negb orb].
    destruct (negb (Qle_bool _ _)); cbn; repeat split; reflexivity.
Qed.

Lemma fit_example_and_centering_witness :
  RightPanel.complete (RightPanel.mkImg true 600 1200) = true /\
  ImageMetrics.initialX
    (RightPanel.initialImageMetrics
       (RightPanel.updateFit (Some (RightPanel.mkImg true 600 1200))
          (Some (RightPanel.mkContainer 800 600))
          (RightPanel.mkView (Transform.mk 3 7 9) (ImageMetrics.mk 0 0 0 0)
             false (PanStart.mk 0 0 0 0) []))) == 250.
Proof.
  split; [reflexivity|].
  rewrite (proj1 (proj2 fit_example_and_centering
                    (RightPanel.mkImg true 600 1200)
                    (RightPanel.mkContainer 800 600)
                    (RightPanel.mkView (Transform.mk 3 7 9) (ImageMetrics.mk 0 0 0 0)
                       false (PanStart.mk 0 0 0 0) [])
                    eq_refl eq_refl eq_refl eq_refl eq_refl)).
  vm_compute. reflexivity.
Defined.

(** ** Export *)

Lemma handleDownloadImage_busy (p : RightPanel.Props) (options : DownloadOptions.t)
    (s : RightPanel.ExportState) :
  RightPanel.isProcessingDownload s = true ->
  RightPanel.handleDownloadImage p options s = s.
Proof. intros Hf. unfold RightPanel.handleDownloadImage. now rewrite Hf. Qed.

Lemma handleDownloadImage_accepts (p : RightPanel.Props)
    (options : DownloadOptions.t) (s : RightPanel.ExportState) :
  RightPanel.isProcessingDownload s = false ->
  JS.truthy (RightPanel.currentImage p) = true ->
  exists image,
    RightPanel.currentImage p = Some image /\
    RightPanel.handleDownloadImage p options s
    = RightPanel.mkExport true
        (RightPanel.pending s
         ++ [RightPanel.mkJob options ("data:image/png;base64," ++ image)%string
               (RightPanel.t p)])
        (RightPanel.clicked s) (RightPanel.alerts s).
Proof.
  intros Hf Himg. unfold RightPanel.handleDownloadImage.
  rewrite Hf, Himg. cbn [orb negb].
  destruct (RightPanel.currentImage p) as [image|]; [|discriminate Himg].
  now exists image.
Qed.

Lemma handleDownloadImage_consistent (p : RightPanel.Props)
    (options : DownloadOptions.t) (s : RightPanel.ExportState) :
  RightPanel.consistent s ->
  RightPanel.consistent (RightPanel.handleDownloadImage p options s).
Proof.
  intros Hs.
  destruct (RightPanel.isProcessingDownload s) eqn:Hf.
  - now rewrite handleDownloadImage_busy.
  - destruct (JS.truthy (RightPanel.currentImage p)) eqn:Himg.
    + destruct (handleDownloadImage_accepts p options s Hf Himg) as (image & _ & ->).
      left. split; [reflexivity|].
      unfold RightPanel.in_flight. cbn [RightPanel.pending].
      destruct Hs as [[Hf' _]|[_ Hp]]; [congruence|].
      unfold RightPanel.in_flight in Hp. rewrite length_app, Hp. reflexivity.
    + unfold RightPanel.handleDownloadImage. rewrite Hf, Himg. exact Hs.
Qed.

Lemma settle_clears (browser : RightPanel.Browser)
    (outcome : RightPanel.ImageOutcome) (s : RightPanel.ExportState)
    (job : RightPanel.Job) (rest : list RightPanel.Job) :
  RightPanel.pending s = job :: rest ->
  RightPanel.isProcessingDownload (RightPanel.settle browser outcome s) = false /\
  RightPanel.pending (RightPanel.settle browser outcome s) = rest.
Proof.
  intros Hp. unfold RightPanel.settle. rewrite Hp.
  destruct (match outcome with
            | RightPanel.Loaded image =>
                RightPanel.onload browser (RightPanel.options job) image
            | RightPanel.LoadError event => RightPanel.onerror event
            end); split; reflexivity.
Qed.

Lemma export_step_consistent (s : RightPanel.ExportState) (ev : RightPanel.ExportEvent) :
  RightPanel.consistent s -> RightPanel.consistent (RightPanel.export_step s ev).
Proof.
  intros Hs. destruct ev as [p m|p options|browser outcome]; cbn [RightPanel.export_step].
  - unfold DownloadModal.handleDownloadClick.
    destruct (RightPanel.isProcessingDownload s); [exact Hs|].
    now apply handleDownloadImage_consistent.
  - now apply handleDownloadImage_consistent.
  - destruct (RightPanel.pending s) as [|job rest] eqn:Ep.
    + unfold RightPanel.settle. rewrite Ep. exact Hs.
    + destruct (settle_clears browser outcome s job rest Ep) as [Hf Hp].
      right. split; [exact Hf|].
      unfold RightPanel.consistent, RightPanel.in_flight in *. rewrite Hp.
      destruct Hs as [[_ Hl]|[_ Hl]]; rewrite Ep in Hl; cbn in Hl; lia.
Qed.

Lemma export_run_consistent (evs : list RightPanel.ExportEvent) :
  forall s, RightPanel.consistent s ->
            RightPanel.consistent (RightPanel.export_run evs s).
Proof.
  induction evs as [|ev evs IH]; intros s Hs; cbn.
  - exact Hs.
  - apply IH. now apply export_step_consistent.
Qed.

Lemma export_initial_consistent : RightPanel.consistent RightPanel.export_initial.
Proof. right. split; reflexivity. Qed.

(** C4.  In every state the export can reach, at most one export is in
    flight, and while the in-progress flag is set a further invocation, by
    the modal's button or directly, returns the state as it is: the flag,
    the waiting export and the links clicked so far are unchanged. *)
Theorem export_single_flight
    (evs : list RightPanel.ExportEvent) (p : RightPanel.Props)
    (options : DownloadOptions.t) (m : DownloadModal.State) :
  let s := RightPanel.export_run evs RightPanel.export_initial in
  (RightPanel.in_flight s <= 1)%nat /\
  (RightPanel.isProcessingDownload s = true ->
   RightPanel.handleDownloadImage p options s = s /\
   DownloadModal.handleDownloadClick (RightPanel.isProcessingDownload s)
     (RightPanel.handleDownloadImage p) m s = s /\
   RightPanel.in_flight (RightPanel.export_step s (RightPanel.Invoke p options)) = 1%nat /\
   RightPanel.clicked (RightPanel.export_step s (RightPanel.ModalClick p m))
   = RightPanel.clicked s).
Proof.
  intros s.
  pose proof (export_run_consistent evs _ export_initial_consistent) as Hc.
  fold s in Hc. split.
  - destruct Hc as [[_ Hp]|[_ Hp]]; rewrite Hp; lia.
  - intros Hf.
    pose proof (handleDownloadImage_busy p options s Hf) as E1.
    assert (DownloadModal.handleDownloadClick (RightPanel.isProcessingDownload s)
              (RightPanel.handleDownloadImage p) m s = s) as E2
      by (unfold DownloadModal.handleDownloadClick; now rewrite Hf).
    repeat split; try assumption.
    + cbn [RightPanel.export_step]. rewrite E1.
      destruct Hc as [[_ Hp]|[Hf' _]]; [exact Hp|congruence].
    + cbn [RightPanel.export_step]. now rewrite E2.
Qed.

(** C10.  From a reachable state with no export in progress and a current
    image, the invocation sets the in-progress flag and one export waits;
    however the waiting image then settles (loaded and drawn, no canvas
    context, an exception while drawing, or a load error) the flag is
    cleared and nothing is left waiting, and the next invocation is accepted
    again. *)
Theorem export_flag_reset_on_every_exit
    (evs : list RightPanel.ExportEvent) (p : RightPanel.Props)
    (options : DownloadOptions.t) :
  let s := RightPanel.export_run evs RightPanel.export_initial in
  RightPanel.isProcessingDownload s = false ->
  JS.truthy (RightPanel.currentImage p) = true ->
  let s1 := RightPanel.handleDownloadImage p options s in
  RightPanel.isProcessingDownload s1 = true /\
  map RightPanel.options (RightPanel.pending s1) = [options] /\
  forall (browser : RightPanel.Browser) (outcome : RightPanel.ImageOutcome),
    let s2 := RightPanel.settle browser outcome s1 in
    RightPanel.isProcessingDownload s2 = false /\
    RightPanel.pending s2 = [] /\
    forall options' : DownloadOptions.t,
      let s3 := RightPanel.handleDownloadImage p options' s2 in
      RightPanel.isProcessingDownload s3 = true /\
      map RightPanel.options (RightPanel.pending s3) = [options'].
Proof.
  intros s Hf Himg s1.
  pose proof (export_run_consistent evs _ export_initial_consistent) as Hc.
  fold s in Hc.
  assert (RightPanel.pending s = []) as Hp.
  { destruct Hc as [[Hf' _]|[_ Hp]]; [congruence|].
    unfold RightPanel.in_flight in Hp.
    destruct (RightPanel.pending s); [reflexivity|discriminate Hp]. }
  destruct (handleDownloadImage_accepts p options s Hf Himg) as (image & _ & E1).
  fold s1 in E1. rewrite Hp in E1. cbn [app] in E1.
  clearbody s1. subst s1.
  split; [reflexivity|]. split; [reflexivity|].
  intros browser outcome. cbv zeta.
  set (s2 := RightPanel.settle browser outcome _).
  assert (RightPanel.isProcessingDownload s2 = false /\ RightPanel.pending s2 = [])
    as [Hf2 Hp2] by (subst s2; eapply settle_clears; reflexivity).
  split; [exact Hf2|]. split; [exact Hp2|].
  intros options'.
  destruct (handleDownloadImage_accepts p options' s2 Hf2 Himg) as (image' & _ & ->).
  rewrite Hp2. split; reflexivity.
Qed.

Lemma export_single_flight_witness :
  RightPanel.isProcessingDownload
    (RightPanel.export_run
       [RightPanel.Invoke
          Sample.props
          (DownloadOptions.mk 2 jpeg 90)]
       RightPanel.export_initial) = true /\
  RightPanel.in_flight
    (RightPanel.export_step
       (RightPanel.export_run
          [RightPanel.Invoke
             Sample.props
             (DownloadOptions.mk 2 jpeg 90)]
          RightPanel.export_initial)
       (RightPanel.Invoke
          Sample.props
          (DownloadOptions.mk 4 png 90))) = 1%nat.
Proof.
  split; [reflexivity|].
  exact (proj1 (proj2 (proj2 (proj2 (export_single_flight
           [RightPanel.Invoke
              Sample.props
              (DownloadOptions.mk 2 jpeg 90)]
           Sample.props
           (DownloadOptions.mk 4 png 90) DownloadModal.initial) eq_refl)))).
Defined.

Lemma export_flag_reset_on_every_exit_witness :
  RightPanel.isProcessingDownload (RightPanel.export_run [] RightPanel.export_initial)
  = false /\
  JS.truthy
    (RightPanel.currentImage
       Sample.props) = true /\
  RightPanel.isProcessingDownload
    (RightPanel.settle
       (RightPanel.mkBrowser false None)
       (RightPanel.Loaded (Image.mk 500 300 (fun _ _ _ _ => Canvas.white)))
       (RightPanel.handleDownloadImage
          Sample.props
          (DownloadOptions.mk 2 jpeg 90)
          (RightPanel.export_run [] RightPanel.export_initial))) = false.
Proof.
  split; [reflexivity|]. split; [reflexivity|].
  exact (proj1 (proj2 (proj2 (export_flag_reset_on_every_exit []
           Sample.props
           (DownloadOptions.mk 2 jpeg 90) eq_refl eq_refl))
           (RightPanel.mkBrowser false None)
           (RightPanel.Loaded (Image.mk 500 300 (fun _ _ _ _ => Canvas.white))))).
Defined.

(** ** The exported canvas *)

Lemma source_over_opaque_destination (src dst : Canvas.Pixel) :
  Canvas.alpha dst == 1 -> Canvas.alpha (Canvas.source_over src dst) == 1.
Proof.
  intros Hd. unfold Canvas.source_over.
  set (out := Canvas.alpha src + Canvas.alpha dst * (1 - Canvas.alpha src)).
  assert (out == 1) as Hout by (subst out; rewrite Hd; ring).
  destruct (Qeq_bool out 0) eqn:E.
  - apply Qeq_bool_iff in E. rewrite Hout in E. discriminate E.
  - cbn. exact Hout.
Qed.

Lemma source_over_transparent_source (src dst : Canvas.Pixel) :
  Canvas.alpha src == 0 -> Canvas.alpha dst == 1 ->
  Canvas.same_pixel (Canvas.source_over src dst) dst.
Proof.
  intros Hs Hd. unfold Canvas.source_over.
  set (out := Canvas.alpha src + Canvas.alpha dst * (1 - Canvas.alpha src)).
  assert (out == 1) as Hout by (subst out; rewrite Hd; ring).
  destruct (Qeq_bool out 0) eqn:E.
  - apply Qeq_bool_iff in E. rewrite Hout in E. discriminate E.
  - unfold Canvas.same_pixel. cbn. fold out.
    rewrite Hout, Hs, Hd. repeat split; field.
Qed.

Lemma source_over_transparent_destination (src dst : Canvas.Pixel) :
  Canvas.alpha dst == 0 ->
  Canvas.alpha (Canvas.source_over src dst) == Canvas.alpha src /\
  (Canvas.alpha src == 0 -> Canvas.source_over src dst = Canvas.transparent) /\
  (~ Canvas.alpha src == 0 ->
   Canvas.same_pixel (Canvas.source_over src dst) src).
Proof.
  intros Hd. unfold Canvas.source_over.
  set (out := Canvas.alpha src + Canvas.alpha dst * (1 - Canvas.alpha src)).
  assert (out == Canvas.alpha src) as Hout by (subst out; rewrite Hd; ring).
  destruct (Qeq_bool out 0) eqn:E.
  - apply Qeq_bool_iff in E. rewrite Hout in E.
    repeat split; try (cbn; now rewrite E); tauto.
  - apply Qeq_bool_neq in E. rewrite Hout in E.
    split; [exact Hout|]. split; [tauto|].
    intros Hnz. unfold Canvas.same_pixel. cbn. fold out.
    rewrite Hout, Hd. repeat split; field; exact Hnz.
Qed.

Lemma prepared_size (options : DownloadOptions.t) (image : Image.t) :
  Canvas.width (RightPanel.prepared options image)
  = (Image.naturalWidth image * DownloadOptions.scale options)%Z /\
  Canvas.height (RightPanel.prepared options image)
  = (Image.naturalHeight image * DownloadOptions.scale options)%Z.
Proof.
  unfold RightPanel.prepared.
  destruct (DownloadOptions.format options); split; reflexivity.
Qed.

Lemma drawn_pixel (options : DownloadOptions.t) (image : Image.t) (i j : Z) :
  let w := (Image.naturalWidth image * DownloadOptions.scale options)%Z in
  let h := (Image.naturalHeight image * DownloadOptions.scale options)%Z in
  Canvas.within 0 0 w h i j = true ->
  Canvas.bitmap (RightPanel.drawn options image) i j
  = Canvas.source_over (Image.resample image w h i j)
      (Canvas.bitmap (RightPanel.prepared options image) i j).
Proof.
  intros w h Hin.
  destruct (prepared_size options image) as [Ew Eh].
  unfold RightPanel.drawn. cbn. rewrite Ew, Eh.
  fold w h. rewrite Hin.
  now rewrite !Z.sub_0_r.
Qed.

(** C8.  The exported canvas is [naturalWidth * scale] by
    [naturalHeight * scale] in both formats, and each of its pixels is the
    image drawn over the canvas as prepared.  For jpeg the prepared canvas is
    opaque white everywhere, so every pixel of the result is opaque and is
    white where the image is transparent.  For png the prepared canvas is
    transparent, so every pixel of the result has the alpha of the image and
    is transparent where the image is. *)
Theorem export_jpeg_fill_png_transparency
    (options : DownloadOptions.t) (image : Image.t) :
  let w := (Image.naturalWidth image * DownloadOptions.scale options)%Z in
  let h := (Image.naturalHeight image * DownloadOptions.scale options)%Z in
  let before := RightPanel.prepared options image in
  let canvas := RightPanel.drawn options image in
  let source := Image.resample image w h in
  Canvas.width canvas = w /\ Canvas.height canvas = h /\
  (forall i j, Canvas.within 0 0 w h i j = true ->
     Canvas.bitmap canvas i j
     = Canvas.source_over (source i j) (Canvas.bitmap before i j)) /\
  (DownloadOptions.format options = jpeg ->
   forall i j, Canvas.within 0 0 w h i j = true ->
     Canvas.same_pixel (Canvas.bitmap before i j) Canvas.white /\
     Canvas.alpha (Canvas.bitmap canvas i j) == 1 /\
     (Canvas.alpha (source i j) == 0 ->
      Canvas.same_pixel (Canvas.bitmap canvas i j) Canvas.white)) /\
  (DownloadOptions.format options = png ->
   forall i j, Canvas.within 0 0 w h i j = true ->
     Canvas.bitmap before i j = Canvas.transparent /\
     Canvas.alpha (Canvas.bitmap canvas i j) == Canvas.alpha (source i j) /\
     (Canvas.alpha (source i j) == 0 ->
      Canvas.bitmap canvas i j = Canvas.transparent)).
Proof.
  intros w h before canvas source.
  destruct (prepared_size options image) as [Ew Eh].
  split; [exact Ew|]. split; [exact Eh|].
  split; [intros i j Hin; now apply drawn_pixel|].
  split.
  - intros Hfmt i j Hin.
    assert (Canvas.bitmap before i j
            = Canvas.source_over Canvas.white Canvas.transparent) as Eb.
    { subst before. unfold RightPanel.prepared. rewrite Hfmt. cbn.
      fold w h. now rewrite Hin. }
    assert (Canvas.same_pixel (Canvas.bitmap before i j) Canvas.white) as Hwhite.
    { rewrite Eb. vm_compute. repeat split. }
    split; [exact Hwhite|].
    subst canvas. rewrite (drawn_pixel options image i j Hin). fold w h source before.
    destruct Hwhite as (Hr & Hg & Hb & Ha).
    split.
    + apply source_over_opaque_destination. exact Ha.
    + intros Hs.
      destruct (source_over_transparent_source (source i j)
                  (Canvas.bitmap before i j) Hs Ha) as (Kr & Kg & Kb & Ka).
      unfold Canvas.same_pixel.
      rewrite Kr, Kg, Kb, Ka. now repeat split.
  - intros Hfmt i j Hin.
    assert (Canvas.bitmap before i j = Canvas.transparent) as Eb.
    { subst before. unfold RightPanel.prepared. now rewrite Hfmt. }
    split; [exact Eb|].
    subst canvas. rewrite (drawn_pixel options image i j Hin). fold w h source before.
    rewrite Eb.
    destruct (source_over_transparent_destination (source i j) Canvas.transparent)
      as (Ka & Kt & _); [reflexivity|].
    split; [exact Ka|exact Kt].
Qed.

Lemma export_jpeg_fill_png_transparency_witness :
  DownloadOptions.format (DownloadOptions.mk 2 jpeg 90) = jpeg /\
  Canvas.within 0 0 (500 * 2) (300 * 2) 10 20 = true /\
  Canvas.alpha
    (Canvas.bitmap
       (RightPanel.drawn (DownloadOptions.mk 2 jpeg 90)
          (Image.mk 500 300 (fun _ _ _ _ => Canvas.transparent))) 10%Z 20%Z) == 1.
Proof.
  split; [reflexivity|]. split; [reflexivity|].
  exact (proj1 (proj2 (proj1 (proj2 (proj2 (proj2
           (export_jpeg_fill_png_transparency (DownloadOptions.mk 2 jpeg 90)
              (Image.mk 500 300 (fun _ _ _ _ => Canvas.transparent))))))
           eq_refl 10%Z 20%Z eq_refl))).
Defined.

(** ** Listeners *)

Lemma text_cleanup_effect (s : DraggableText.State) :
  DraggableText.cleanup (DraggableText.effect s []) = [].
Proof. unfold DraggableText.effect. destruct (DraggableText.isDragging s); reflexivity. Qed.

Lemma text_commit_listeners (old new : DraggableText.State) :
  DraggableText.window old = DraggableText.effect old [] ->
  DraggableText.window new = DraggableText.window old ->
  DraggableText.window (DraggableText.commit old new)
  = DraggableText.effect (DraggableText.commit old new) [].
Proof.
  intros Hold Hsame. unfold DraggableText.commit.
  destruct (DraggableText.deps_changed old new) eqn:D.
  - cbn [DraggableText.window]. rewrite Hsame, Hold, text_cleanup_effect.
    reflexivity.
  - rewrite Hsame, Hold. unfold DraggableText.deps_changed in D.
    apply negb_false_iff, Bool.eqb_prop in D.
    unfold DraggableText.effect. now rewrite D.
Qed.

Lemma text_handleDragStart_window c t x y (s : DraggableText.State) :
  DraggableText.window (DraggableText.handleDragStart c t x y s)
  = DraggableText.window s.
Proof. unfold DraggableText.handleDragStart. destruct c, t; reflexivity. Qed.

Lemma text_handleDragMove_window c x y (s : DraggableText.State) :
  DraggableText.window (DraggableText.handleDragMove c x y s)
  = DraggableText.window s.
Proof.
  unfold DraggableText.handleDragMove.
  destruct c; [destruct (DraggableText.isDragging s)|]; reflexivity.
Qed.

Lemma text_step_listeners (s : DraggableText.State) (ev : DraggableText.Event) :
  DraggableText.window s = DraggableText.effect s [] ->
  DraggableText.window (DraggableText.step s ev)
  = DraggableText.effect (DraggableText.step s ev) [].
Proof.
  intros Hs.
  destruct ev as [c t e|c t e|c e|c e| |]; cbn [DraggableText.step];
    unfold DraggableText.dispatch; when_registered Hs;
    apply text_commit_listeners; try exact Hs.
  - apply text_handleDragStart_window.
  - unfold DraggableText.onTouchStart.
    destruct (TouchEvent.touches e) as [|[x y] rest];
      [reflexivity|apply text_handleDragStart_window].
  - apply text_handleDragMove_window.
  - unfold DraggableText.onTouchMove.
    destruct (TouchEvent.touches e) as [|[x y] rest];
      [reflexivity|apply text_handleDragMove_window].
  - reflexivity.
  - reflexivity.
Qed.

Lemma text_run_listeners (evs : list DraggableText.Event) :
  forall s, DraggableText.window s = DraggableText.effect s [] ->
            DraggableText.window (DraggableText.run evs s)
            = DraggableText.effect (DraggableText.run evs s) [].
Proof.
  induction evs as [|ev evs IH]; intros s Hs; cbn.
  - exact Hs.
  - apply IH. now apply text_step_listeners.
Qed.

Lemma crop_cleanup_effect (s : CropBox.State) :
  CropBox.cleanup (CropBox.effect s []) = [].
Proof. unfold CropBox.effect. destruct (CropBox.active s); reflexivity. Qed.

Lemma crop_same_handle (a b : option string) :
  CropBox.same_handle a b = true -> a = b.
Proof.
  destruct a as [u|], b as [v|]; cbn; intros H; try discriminate H.
  - apply String.eqb_eq in H. now subst.
  - reflexivity.
Qed.

Lemma crop_commit_listeners (old new : CropBox.State) :
  CropBox.window old = CropBox.effect old [] ->
  CropBox.window new = CropBox.window old ->
  CropBox.window (CropBox.commit old new)
  = CropBox.effect (CropBox.commit old new) [].
Proof.
  intros Hold Hsame. unfold CropBox.commit.
  destruct (CropBox.deps_changed old new) eqn:D.
  - cbn [CropBox.window]. rewrite Hsame, Hold, crop_cleanup_effect.
    reflexivity.
  - rewrite Hsame, Hold. unfold CropBox.deps_changed in D.
    apply orb_false_iff in D. destruct D as [D1 D2].
    apply negb_false_iff, Bool.eqb_prop in D1.
    apply negb_false_iff, crop_same_handle in D2.
    unfold CropBox.effect, CropBox.active. now rewrite D1, D2.
Qed.

Lemma crop_step_listeners (s : CropBox.State) (ev : CropBox.Event) :
  CropBox.window s = CropBox.effect s [] ->
  CropBox.window (CropBox.step s ev) = CropBox.effect (CropBox.step s ev) [].
Proof.
  intros Hs.
  destruct ev as [e handle|c e|]; cbn [CropBox.step]; unfold CropBox.dispatch;
    when_registered Hs;
    apply crop_commit_listeners; try exact Hs; try reflexivity.
  unfold CropBox.handleMouseMove.
  destruct c; [destruct (CropBox.delta _ _ _)|]; reflexivity.
Qed.

Lemma crop_run_listeners (evs : list CropBox.Event) :
  forall s, CropBox.window s = CropBox.effect s [] ->
            CropBox.window (CropBox.run evs s) = CropBox.effect (CropBox.run evs s) [].
Proof.
  induction evs as [|ev evs IH]; intros s Hs; cbn.
  - exact Hs.
  - apply IH. now apply crop_step_listeners.
Qed.

Lemma comparator_step_keeps (s : ImageComparator.State) (ev : ImageComparator.Event) :
  ImageComparator.window (ImageComparator.step s ev) = ImageComparator.window s.
Proof.
  destruct ev as [c x|c x|]; cbn [ImageComparator.step].
  - unfold ImageComparator.handleInteractionStart, ImageComparator.moveSlider.
    destruct c; reflexivity.
  - destruct (Window.registered _ _); [|reflexivity].
    unfold ImageComparator.handleInteractionMove, ImageComparator.moveSlider.
    destruct (ImageComparator.isDragging s); [destruct c|]; reflexivity.
  - destruct (Window.registered _ _); reflexivity.
Qed.

Lemma comparator_run_keeps (evs : list ImageComparator.Event) :
  forall s, ImageComparator.window (ImageComparator.run evs s)
            = ImageComparator.window s.
Proof.
  induction evs as [|ev evs IH]; intros s; cbn.
  - reflexivity.
  - rewrite IH. apply comparator_step_keeps.
Qed.

(** C9, as stated, fails for the comparator: right after it is mounted, with
    no drag under way, its move and end listeners are registered on the
    window. *)
Lemma comparator_listeners_registered_while_idle :
  ImageComparator.isDragging ImageComparator.mount = false /\
  ImageComparator.window ImageComparator.mount
  = [("mousemove", "handleInteractionMove");
     ("touchmove", "handleInteractionMove");
     ("mouseup", "handleInteractionEnd");
     ("touchend", "handleInteractionEnd")]%string /\
  ImageComparator.window ImageComparator.mount <> [].
Proof. repeat split. discriminate. Qed.

(** C9, amended.  The text and crop controllers have their window listeners
    registered exactly while their gesture is active: none while idle, all of
    them while dragging or resizing, and none once they unmount, even in the
    middle of a gesture.  The comparator keeps its four listeners registered
    from mount on, whatever happens, and removes them when it unmounts; while
    it is not dragging, a window move leaves its state as it is. *)
Theorem listeners_follow_the_gesture :
  (forall (overlay : TextOverlayState.t) (evs : list DraggableText.Event),
      let s := DraggableText.run evs (DraggableText.mount overlay) in
      (DraggableText.isDragging s = false -> DraggableText.window s = []) /\
      (DraggableText.isDragging s = true ->
       DraggableText.window s
       = [("mousemove", "onMouseMove"); ("mouseup", "handleDragEnd");
          ("touchmove", "onTouchMove"); ("touchend", "handleDragEnd")]%string) /\
      DraggableText.window (DraggableText.unmount s) = []) /\
  (forall (crop : CropState.t) (evs : list CropBox.Event),
      let s := CropBox.run evs (CropBox.mount crop) in
      (CropBox.active s = false -> CropBox.window s = []) /\
      (CropBox.active s = true ->
       CropBox.window s
       = [("mousemove", "handleMouseMove"); ("mouseup", "handleMouseUp")]%string) /\
      CropBox.window (CropBox.unmount s) = []) /\
  (forall evs : list ImageComparator.Event,
      let s := ImageComparator.run evs ImageComparator.mount in
      ImageComparator.window s
      = [("mousemove", "handleInteractionMove");
         ("touchmove", "handleInteractionMove");
         ("mouseup", "handleInteractionEnd");
         ("touchend", "handleInteractionEnd")]%string /\
      ImageComparator.window (ImageComparator.unmount s) = [] /\
      (ImageComparator.isDragging s = false ->
       forall (c : option DOMRect.t) (clientX : Q),
         ImageComparator.step s (ImageComparator.WindowMove c clientX) = s)).
Proof.
  split; [|split].
  - intros overlay evs s.
    assert (DraggableText.window s = DraggableText.effect s []) as Hs
      by (apply text_run_listeners; reflexivity).
    split; [|split].
    + rewrite Hs. unfold DraggableText.effect. intros ->. reflexivity.
    + rewrite Hs. unfold DraggableText.effect. intros ->. reflexivity.
    + cbn [DraggableText.unmount DraggableText.window].
      rewrite Hs. apply text_cleanup_effect.
  - intros crop evs s.
    assert (CropBox.window s = CropBox.effect s []) as Hs
      by (apply crop_run_listeners; reflexivity).
    split; [|split].
    + rewrite Hs. unfold CropBox.effect. intros ->. reflexivity.
    + rewrite Hs. unfold CropBox.effect. intros ->. reflexivity.
    + cbn [CropBox.unmount CropBox.window].
      rewrite Hs. apply crop_cleanup_effect.
  - intros evs s.
    assert (ImageComparator.window s = ImageComparator.window ImageComparator.mount)
      as Hs by apply comparator_run_keeps.
    split; [rewrite Hs; reflexivity|].
    split; [unfold ImageComparator.unmount; cbn; rewrite Hs; reflexivity|].
    intros Hidle c clientX. cbn [ImageComparator.step].
    unfold ImageComparator.handleInteractionMove. rewrite Hidle.
    now destruct (Window.registered _ _).
Qed.

Lemma listeners_follow_the_gesture_witness :
  CropBox.active
    (CropBox.run
       [CropBox.MouseDown (MouseEvent.mk 100 100 0) (Some "left"%string);
        CropBox.WindowMouseMove (Some Sample.container) (MouseEvent.mk 150 100 0);
        CropBox.WindowMouseUp]
       (CropBox.mount Sample.crop)) = false /\
  CropBox.window
    (CropBox.run
       [CropBox.MouseDown (MouseEvent.mk 100 100 0) (Some "left"%string);
        CropBox.WindowMouseMove (Some Sample.container) (MouseEvent.mk 150 100 0);
        CropBox.WindowMouseUp]
       (CropBox.mount Sample.crop)) = [].
Proof.
  split; [reflexivity|].
  exact (proj1 (proj1 (proj2 listeners_follow_the_gesture)
                  Sample.crop
                  [CropBox.MouseDown (MouseEvent.mk 100 100 0) (Some "left"%string);
                   CropBox.WindowMouseMove (Some Sample.container)
                     (MouseEvent.mk 150 100 0);
                   CropBox.WindowMouseUp]) eq_refl).
Defined.

(** ** Mouse buttons *)

Lemma pan_ignores_secondary_button
    (p : RightPanel.Props) (onTool : bool) (e : MouseEvent.t) (s : RightPanel.View) :
  MouseEvent.button e <> 0%Z -> RightPanel.handleMouseDown p onTool e s = s.
Proof.
  intros Hb. unfold RightPanel.handleMouseDown.
  destruct (Z.eqb_spec (MouseEvent.button e) 0) as [E|_]; [contradiction|].
  now rewrite orb_true_r.
Qed.

Lemma text_mouse_down_any_button
    (c t : DOMRect.t) (e : MouseEvent.t) (s : DraggableText.State) :
  DraggableText.isDragging (DraggableText.onMouseDown (Some c) (Some t) e s) = true.
Proof. reflexivity. Qed.

Lemma crop_mouse_down_any_button
    (e : MouseEvent.t) (handle : option string) (s : CropBox.State) :
  CropBox.active (CropBox.handleMouseDown e handle s) = true.
Proof.
  unfold CropBox.active. cbn. now destruct (JS.truthy handle).
Qed.

(** C7 fails on the code.  A press of the secondary button (button 2) on the
    text overlay starts a drag, and the next pointer move repositions the
    text; the same press on the crop box starts a move of the rectangle, and
    on a crop handle a resize.  Only the pan surface tests the button. *)
Theorem secondary_button_starts_drag :
  DraggableText.isDragging
    (DraggableText.run
       [DraggableText.MouseDown (Some Sample.container) (Some Sample.textBox)
          (MouseEvent.mk 500 250 2)]
       (DraggableText.mount Sample.overlay)) = true /\
  TextOverlayState.x
    (DraggableText.textOverlay
       (DraggableText.run
          [DraggableText.MouseDown (Some Sample.container) (Some Sample.textBox)
             (MouseEvent.mk 500 250 2);
           DraggableText.WindowMouseMove (Some Sample.container)
             (MouseEvent.mk 800 250 2)]
          (DraggableText.mount Sample.overlay))) == 70 /\
  CropBox.isDragging
    (CropBox.run [CropBox.MouseDown (MouseEvent.mk 500 250 2) None]
       (CropBox.mount Sample.crop)) = true /\
  CropState.x
    (CropBox.cropState
       (CropBox.run
          [CropBox.MouseDown (MouseEvent.mk 500 250 2) None;
           CropBox.WindowMouseMove (Some Sample.container) (MouseEvent.mk 550 250 2)]
          (CropBox.mount Sample.crop))) == 15 /\
  CropBox.resizeHandle
    (CropBox.run [CropBox.MouseDown (MouseEvent.mk 500 250 2) (Some "left"%string)]
       (CropBox.mount Sample.crop)) = Some "left"%string.
Proof. vm_compute. repeat split. Qed.

(** ** Gestures without net movement *)

(** C6 fails on the code for the text overlay.  The text is centred on 50%,
    50% of a 1000x500 container and its box is 200x40.  A press at its
    centre with the primary button, one pointer move to the very same point
    and the release leave it at 40%, 46%, not where it was: the snapshot
    holds the corner of the box, the stored position names its centre. *)
Theorem text_drag_without_movement_shifts :
  TextOverlayState.x
    (DraggableText.textOverlay
       (DraggableText.run (Sample.text_gesture 0 500 250)
          (DraggableText.mount Sample.overlay))) == 40 /\
  TextOverlayState.y
    (DraggableText.textOverlay
       (DraggableText.run (Sample.text_gesture 0 500 250)
          (DraggableText.mount Sample.overlay))) == 46 /\
  DraggableText.isDragging
    (DraggableText.run (Sample.text_gesture 0 500 250)
       (DraggableText.mount Sample.overlay)) = false /\
  ~ TextOverlayState.x
      (DraggableText.textOverlay
         (DraggableText.run (Sample.text_gesture 0 500 250)
            (DraggableText.mount Sample.overlay)))
    == TextOverlayState.x
         (DraggableText.textOverlay (DraggableText.mount Sample.overlay)).
Proof. vm_compute. repeat split; discriminate. Qed.

(** In general the press and a move to the same point store the centre of
    the text moved back by half of its box. *)
Lemma text_drag_without_movement_general
    (c : DOMRect.t) (w h clientX clientY : Q) (s : DraggableText.State) :
  0 < DOMRect.width c -> 0 < DOMRect.height c ->
  let overlay := DraggableText.textOverlay s in
  let s' := DraggableText.handleDragMove (Some c) clientX clientY
              (DraggableText.handleDragStart (Some c)
                 (Some (DraggableText.rendered c overlay w h)) clientX clientY s) in
  TextOverlayState.x (DraggableText.textOverlay s')
  == Qmax 0 (Qmin 100 (TextOverlayState.x overlay - ((w / 2) / DOMRect.width c) * 100)) /\
  TextOverlayState.y (DraggableText.textOverlay s')
  == Qmax 0 (Qmin 100 (TextOverlayState.y overlay - ((h / 2) / DOMRect.height c) * 100)).
Proof.
  intros HW HH overlay s'. subst s'. cbn. fold overlay.
  split.
  - setoid_replace
      ((DOMRect.left c + TextOverlayState.x overlay / 100 * DOMRect.width c - w / 2
        - DOMRect.left c + (clientX - clientX)) / DOMRect.width c * 100)
      with (TextOverlayState.x overlay - w / 2 / DOMRect.width c * 100);
      [reflexivity|field; lra].
  - setoid_replace
      ((DOMRect.top c + TextOverlayState.y overlay / 100 * DOMRect.height c - h / 2
        - DOMRect.top c + (clientY - clientY)) / DOMRect.height c * 100)
      with (TextOverlayState.y overlay - h / 2 / DOMRect.height c * 100);
      [reflexivity|field; lra].
Qed.

(** The crop rectangle does come back: from a rectangle that satisfies the
    invariant, a press on the box or on any handle followed by a move to the
    point of the press stores the rectangle of the snapshot. *)
Lemma crop_gesture_without_movement
    (s0 : CropBox.State) (e0 e : MouseEvent.t) (handle : option string)
    (rect : DOMRect.t) :
  CropState.valid (CropBox.cropState s0) ->
  0 < DOMRect.width rect -> 0 < DOMRect.height rect ->
  MouseEvent.clientX e == MouseEvent.clientX e0 ->
  MouseEvent.clientY e == MouseEvent.clientY e0 ->
  let r := CropBox.cropState
             (CropBox.handleMouseMove (Some rect) e
                (CropBox.handleMouseDown e0 handle s0)) in
  CropState.x r == CropState.x (CropBox.cropState s0) /\
  CropState.y r == CropState.y (CropBox.cropState s0) /\
  CropState.width r == CropState.width (CropBox.cropState s0) /\
  CropState.height r == CropState.height (CropBox.cropState s0).
Proof.
  intros (Hw & Hh & Hx & Hy) HW HH Ex Ey r.
  set (c := CropBox.cropState s0) in *.
  set (dx := (MouseEvent.clientX e - MouseEvent.clientX e0) / DOMRect.width rect * 100).
  set (dy := (MouseEvent.clientY e - MouseEvent.clientY e0) / DOMRect.height rect * 100).
  assert (dx == 0) as Hdx by (subst dx; rewrite Ex; field; lra).
  assert (dy == 0) as Hdy by (subst dy; rewrite Ey; field; lra).
  assert (r = CropBox.clamp
                (CropBox.candidate (negb (JS.truthy handle)) handle
                   (CropBox.mkDragStart (MouseEvent.clientX e0) (MouseEvent.clientY e0)
                      (CropState.x c) (CropState.y c)
                      (CropState.width c) (CropState.height c)) dx dy)) as ->
    by reflexivity.
  set (k := CropBox.candidate _ _ _ _ _).
  assert (CropState.x k == CropState.x c /\ CropState.y k == CropState.y c /\
          CropState.width k == CropState.width c /\
          CropState.height k == CropState.height c) as (Kx & Ky & Kw & Kh).
  { subst k. unfold CropBox.candidate.
    destruct handle as [hd|]; cbn [JS.truthy negb].
    - destruct (negb (String.eqb hd EmptyString)); cbn [negb].
      + destruct (JS.includes hd "right"), (JS.includes hd "left"),
          (JS.includes hd "bottom"), (JS.includes hd "top");
          cbn; rewrite ?Hdx, ?Hdy; repeat split; ring.
      + cbn. rewrite Hdx, Hdy. repeat split; ring.
    - cbn. rewrite Hdx, Hdy. repeat split; ring. }
  assert (5 <= CropState.width k <= 100) as Hw' by (rewrite Kw; exact Hw).
  assert (5 <= CropState.height k <= 100) as Hh' by (rewrite Kh; exact Hh).
  assert (0 <= CropState.x k <= 100 - CropState.width k) as Hx'
    by (rewrite Kx, Kw; exact Hx).
  assert (0 <= CropState.y k <= 100 - CropState.height k) as Hy'
    by (rewrite Ky, Kh; exact Hy).
  destruct (crop_clamp_fixed k Hw' Hx') as [Fx Fw].
  destruct (crop_clamp_fixed_vertical k Hh' Hy') as [Fy Fh].
  rewrite Fx, Fy, Fw, Fh. now repeat split.
Qed.

Lemma comparator_moves_keep_dragging
    (rect : DOMRect.t) (xs : list Q) :
  forall s, ImageComparator.isDragging s = true ->
            ImageComparator.isDragging
              (ImageComparator.run
                 (map (ImageComparator.WindowMove (Some rect)) xs) s) = true.
Proof.
  induction xs as [|x xs IH]; intros s Hs; cbn; [exact Hs|].
  apply IH. destruct (Window.registered _ _); [|exact Hs].
  unfold ImageComparator.handleInteractionMove. now rewrite Hs.
Qed.

(** So does the comparator slider, counted from the position the press
    itself gives it: after the press, any moves and a last move to the point
    of the press, the slider is where the press put it. *)
Lemma comparator_gesture_without_movement
    (rect : DOMRect.t) (clientX : Q) (xs : list Q) (evs : list ImageComparator.Event) :
  let s0 := ImageComparator.run evs ImageComparator.mount in
  let pressed := ImageComparator.step s0
                   (ImageComparator.InteractionStart (Some rect) clientX) in
  let released :=
    ImageComparator.run
      (map (ImageComparator.WindowMove (Some rect)) xs
       ++ [ImageComparator.WindowMove (Some rect) clientX; ImageComparator.WindowEnd])
      pressed in
  ImageComparator.sliderPosition released = ImageComparator.sliderPosition pressed /\
  ImageComparator.isDragging released = false.
Proof.
  intros s0 pressed released. subst released.
  unfold ImageComparator.run. rewrite fold_left_app.
  fold (ImageComparator.run (map (ImageComparator.WindowMove (Some rect)) xs) pressed).
  set (s := ImageComparator.run _ pressed).
  assert (ImageComparator.isDragging s = true) as Hd
    by (apply comparator_moves_keep_dragging; reflexivity).
  assert (ImageComparator.window s = ImageComparator.window ImageComparator.mount) as Hw.
  { subst s pressed s0. rewrite comparator_run_keeps, comparator_step_keeps.
    apply comparator_run_keeps. }
  cbn [fold_left].
  set (moved := ImageComparator.step s (ImageComparator.WindowMove (Some rect) clientX)).
  assert (moved = ImageComparator.moveSlider (Some rect) clientX s) as Em.
  { subst moved. cbn [ImageComparator.step]. rewrite Hw.
    unfold ImageComparator.handleInteractionMove. now rewrite Hd. }
  assert (ImageComparator.step moved ImageComparator.WindowEnd
          = ImageComparator.handleInteractionEnd moved) as ->.
  { cbn [ImageComparator.step].
    replace (ImageComparator.window moved)
      with (ImageComparator.window ImageComparator.mount); [reflexivity|].
    rewrite Em. symmetry. exact Hw. }
  rewrite Em. split; reflexivity.
Qed.

(** * Further properties of the code *)

(** ** The comparator slider *)

Lemma slider_percent_bounds (x W : Q) :
  0 < W -> 0 <= x <= W -> 0 <= x / W * 100 <= 100.
Proof.
  intros HW [H0 H1]. split.
  - apply Qmult_le_0_compat; [|lra].
    apply Qle_shift_div_l; [exact HW|lra].
  - assert (x / W <= 1) as Hq by (apply Qle_shift_div_r; [exact HW|lra]).
    lra.
Qed.

Lemma clamped_offset (d W : Q) : 0 < W -> 0 <= Qmax 0 (Qmin d W) <= W.
Proof.
  intros HW.
  destruct (Q.min_spec d W) as [[K E]|[K E]];
    destruct (Q.max_spec 0 (Qmin d W)) as [[L F]|[L F]];
    rewrite F; rewrite ?E in *; lra.
Qed.

Lemma moveSlider_in_range
    (rect : DOMRect.t) (clientX : Q) (s : ImageComparator.State) :
  0 < DOMRect.width rect ->
  0 <= ImageComparator.sliderPosition
         (ImageComparator.moveSlider (Some rect) clientX s) <= 100.
Proof.
  intros HW. cbn. apply slider_percent_bounds; [exact HW|].
  now apply clamped_offset.
Qed.

(** X1.  With a container that has a width, [moveSlider] stores a position
    in [0,100]: exactly 100 for a pointer at or beyond the right edge,
    exactly 0 at or before the left edge, and the pointer's share of the
    width in between. *)
Theorem slider_position_bounded
    (rect : DOMRect.t) (clientX : Q) (s : ImageComparator.State) :
  0 < DOMRect.width rect ->
  let p := ImageComparator.sliderPosition
             (ImageComparator.moveSlider (Some rect) clientX s) in
  (0 <= p <= 100) /\
  (DOMRect.left rect + DOMRect.width rect <= clientX -> p == 100) /\
  (clientX <= DOMRect.left rect -> p == 0) /\
  (DOMRect.left rect <= clientX <= DOMRect.left rect + DOMRect.width rect ->
   p == (clientX - DOMRect.left rect) / DOMRect.width rect * 100).
Proof.
  intros HW p. subst p. cbn.
  set (W := DOMRect.width rect) in *. set (d := clientX - DOMRect.left rect).
  split; [apply slider_percent_bounds; [exact HW|now apply clamped_offset]|].
  split; [|split].
  - intros Hr. assert (W <= d) as Hd by (subst d; lra).
    rewrite (Q.min_r d W) by exact Hd. rewrite Q.max_r by lra. field. lra.
  - intros Hl. assert (d <= 0) as Hd by (subst d; lra).
    rewrite (Q.min_l d W) by lra. rewrite Q.max_l by exact Hd. field. lra.
  - intros [Hl Hr]. assert (0 <= d <= W) as [Hd0 Hd1] by (subst d; lra).
    rewrite (Q.min_l d W) by exact Hd1. rewrite Q.max_r by exact Hd0.
    reflexivity.
Qed.

Lemma slider_position_bounded_witness :
  0 < DOMRect.width (DOMRect.mk 100 0 400 300) /\
  DOMRect.left (DOMRect.mk 100 0 400 300) + DOMRect.width (DOMRect.mk 100 0 400 300)
  <= 730 /\
  ImageComparator.sliderPosition
    (ImageComparator.moveSlider (Some (DOMRect.mk 100 0 400 300)) 730
       ImageComparator.mount) == 100.
Proof.
  assert (0 < DOMRect.width (DOMRect.mk 100 0 400 300)) as HW by reflexivity.
  assert (DOMRect.left (DOMRect.mk 100 0 400 300)
          + DOMRect.width (DOMRect.mk 100 0 400 300) <= 730) as Hr
    by (vm_compute; discriminate).
  split; [exact HW|]. split; [exact Hr|].
  exact (proj1 (proj2 (slider_position_bounded (DOMRect.mk 100 0 400 300) 730
                         ImageComparator.mount HW)) Hr).
Defined.

Lemma comparator_step_bounded (s : ImageComparator.State) (ev : ImageComparator.Event) :
  ImageComparator.well_sized ev ->
  0 <= ImageComparator.sliderPosition s <= 100 ->
  0 <= ImageComparator.sliderPosition (ImageComparator.step s ev) <= 100.
Proof.
  intros Hev Hs. destruct ev as [c x|c x|]; cbn [ImageComparator.step].
  - destruct c as [rect|]; [|exact Hs].
    unfold ImageComparator.handleInteractionStart.
    now apply moveSlider_in_range.
  - destruct (Window.registered _ _); [|exact Hs].
    unfold ImageComparator.handleInteractionMove.
    destruct (ImageComparator.isDragging s); [|exact Hs].
    destruct c as [rect|]; [|exact Hs].
    now apply moveSlider_in_range.
  - destruct (Window.registered _ _); exact Hs.
Qed.

(** X2.  From the mounted comparator (slider at 50), whatever presses, moves
    and releases follow, over containers that have a width, the slider
    position stays in [0,100]. *)
Theorem slider_stays_in_range (evs : list ImageComparator.Event) :
  Forall ImageComparator.well_sized evs ->
  0 <= ImageComparator.sliderPosition
         (ImageComparator.run evs ImageComparator.mount) <= 100.
Proof.
  assert (forall s, Forall ImageComparator.well_sized evs ->
                    0 <= ImageComparator.sliderPosition s <= 100 ->
                    0 <= ImageComparator.sliderPosition (ImageComparator.run evs s)
                    <= 100) as H.
  { induction evs as [|ev evs IH]; intros s Hevs Hs; cbn; [exact Hs|].
    inversion Hevs as [|? ? Hev Hrest]; subst.
    apply IH; [exact Hrest|]. now apply comparator_step_bounded. }
  intros Hevs. apply H; [exact Hevs|]. cbn. lra.
Qed.

Lemma slider_stays_in_range_witness :
  Forall ImageComparator.well_sized
    [ImageComparator.InteractionStart (Some (DOMRect.mk 100 0 400 300)) 900;
     ImageComparator.WindowMove (Some (DOMRect.mk 100 0 400 300)) (-50);
     ImageComparator.WindowEnd] /\
  0 <= ImageComparator.sliderPosition
         (ImageComparator.run
            [ImageComparator.InteractionStart (Some (DOMRect.mk 100 0 400 300)) 900;
             ImageComparator.WindowMove (Some (DOMRect.mk 100 0 400 300)) (-50);
             ImageComparator.WindowEnd]
            ImageComparator.mount) <= 100.
Proof.
  assert (Forall ImageComparator.well_sized
            [ImageComparator.InteractionStart (Some (DOMRect.mk 100 0 400 300)) 900;
             ImageComparator.WindowMove (Some (DOMRect.mk 100 0 400 300)) (-50);
             ImageComparator.WindowEnd]) as Hevs
    by (repeat constructor).
  split; [exact Hevs|].
  exact (slider_stays_in_range _ Hevs).
Defined.

(** ** Dragging the text *)

(** X3.  While a drag is active, a pointer move stores a position whose [x]
    and [y] lie in [0,100], wherever the pointer is, and leaves the text, the
    colour, the size and the font of the overlay as they were. *)
Theorem text_move_clamped
    (c : DOMRect.t) (clientX clientY : Q) (s : DraggableText.State) :
  0 < DOMRect.width c -> 0 < DOMRect.height c ->
  DraggableText.isDragging s = true ->
  let before := DraggableText.textOverlay s in
  let after := DraggableText.textOverlay
                 (DraggableText.handleDragMove (Some c) clientX clientY s) in
  (0 <= TextOverlayState.x after <= 100) /\
  (0 <= TextOverlayState.y after <= 100) /\
  TextOverlayState.text after = TextOverlayState.text before /\
  TextOverlayState.color after = TextOverlayState.color before /\
  TextOverlayState.size after = TextOverlayState.size before /\
  TextOverlayState.font after = TextOverlayState.font before.
Proof.
  intros _ _ Hd before after. subst after.
  unfold DraggableText.handleDragMove. rewrite Hd. cbn.
  repeat split; try (apply clamp_between; lra).
Qed.

Lemma text_move_clamped_witness :
  0 < DOMRect.width Sample.container /\
  TextOverlayState.x
    (DraggableText.textOverlay
       (DraggableText.handleDragMove (Some Sample.container) 5000 (-70)
          (DraggableText.handleDragStart (Some Sample.container)
             (Some Sample.textBox) 500 250
             (DraggableText.mount Sample.overlay)))) <= 100.
Proof.
  assert (0 < DOMRect.width Sample.container) as HW by reflexivity.
  assert (0 < DOMRect.height Sample.container) as HH by reflexivity.
  split; [exact HW|].
  exact (proj2 (proj1 (text_move_clamped Sample.container 5000 (-70)
                         (DraggableText.handleDragStart (Some Sample.container)
                            (Some Sample.textBox) 500 250
                            (DraggableText.mount Sample.overlay))
                         HW HH eq_refl))).
Defined.

(** X4.  A move of the text is computed from the snapshot of the press
    alone: after any earlier move of the same gesture, a move to a point
    gives the very state the move to that point would have given at once. *)
Theorem text_last_move_wins
    (c : DOMRect.t) (earlier : option DOMRect.t) (x1 y1 x2 y2 : Q)
    (s : DraggableText.State) :
  0 < DOMRect.width c -> 0 < DOMRect.height c ->
  DraggableText.handleDragMove (Some c) x2 y2
    (DraggableText.handleDragMove earlier x1 y1 s)
  = DraggableText.handleDragMove (Some c) x2 y2 s.
Proof.
  intros _ _. unfold DraggableText.handleDragMove.
  destruct earlier as [c1|]; [|reflexivity].
  destruct (DraggableText.isDragging s) eqn:Hd; cbn; rewrite Hd; reflexivity.
Qed.

Lemma text_last_move_wins_witness :
  0 < DOMRect.width Sample.container /\
  DraggableText.handleDragMove (Some Sample.container) 620 300
    (DraggableText.handleDragMove (Some Sample.container) 10 10
       (DraggableText.handleDragStart (Some Sample.container)
          (Some Sample.textBox) 500 250 (DraggableText.mount Sample.overlay)))
  = DraggableText.handleDragMove (Some Sample.container) 620 300
      (DraggableText.handleDragStart (Some Sample.container)
         (Some Sample.textBox) 500 250 (DraggableText.mount Sample.overlay)).
Proof.
  assert (0 < DOMRect.width Sample.container) as HW by reflexivity.
  assert (0 < DOMRect.height Sample.container) as HH by reflexivity.
  split; [exact HW|].
  exact (text_last_move_wins Sample.container (Some Sample.container) 10 10 620 300
           (DraggableText.handleDragStart (Some Sample.container)
              (Some Sample.textBox) 500 250 (DraggableText.mount Sample.overlay))
           HW HH).
Defined.

(** ** More on the crop rectangle *)

(** X5.  A move of the crop rectangle is computed from the snapshot of the
    press alone: after any earlier move of the same gesture, a move to a
    point gives the very state the move to that point would have given at
    once. *)
Theorem crop_last_move_wins
    (rect : DOMRect.t) (earlier : option DOMRect.t) (e1 e2 : MouseEvent.t)
    (s : CropBox.State) :
  0 < DOMRect.width rect -> 0 < DOMRect.height rect ->
  CropBox.handleMouseMove (Some rect) e2 (CropBox.handleMouseMove earlier e1 s)
  = CropBox.handleMouseMove (Some rect) e2 s.
Proof.
  intros _ _. unfold CropBox.handleMouseMove.
  destruct earlier as [r1|]; [|reflexivity].
  destruct (CropBox.delta r1 e1 (CropBox.dragStart s)). reflexivity.
Qed.

Lemma crop_last_move_wins_witness :
  0 < DOMRect.width Sample.container /\
  CropBox.handleMouseMove (Some Sample.container) (MouseEvent.mk 150 120 0)
    (CropBox.handleMouseMove (Some Sample.container) (MouseEvent.mk 900 900 0)
       (CropBox.handleMouseDown (MouseEvent.mk 100 100 0) None
          (CropBox.mount Sample.crop)))
  = CropBox.handleMouseMove (Some Sample.container) (MouseEvent.mk 150 120 0)
      (CropBox.handleMouseDown (MouseEvent.mk 100 100 0) None
         (CropBox.mount Sample.crop)).
Proof.
  assert (0 < DOMRect.width Sample.container) as HW by reflexivity.
  assert (0 < DOMRect.height Sample.container) as HH by reflexivity.
  split; [exact HW|].
  exact (crop_last_move_wins Sample.container (Some Sample.container)
           (MouseEvent.mk 900 900 0) (MouseEvent.mk 150 120 0)
           (CropBox.handleMouseDown (MouseEvent.mk 100 100 0) None
              (CropBox.mount Sample.crop)) HW HH).
Defined.

(** X6.  Mounted with a rectangle that satisfies the invariant of the data
    model, the crop box keeps it through every sequence of presses (on the
    box or on any handle), moves and releases over containers that have an
    area. *)
Theorem crop_invariant_along_gestures
    (crop : CropState.t) (evs : list CropBox.Event) :
  CropState.valid crop ->
  Forall CropBox.well_sized evs ->
  CropState.valid (CropBox.cropState (CropBox.run evs (CropBox.mount crop))).
Proof.
  intros Hcrop _. apply crop_valid_along_gestures. exact Hcrop.
Qed.

Lemma crop_invariant_along_gestures_witness :
  CropState.valid Sample.crop /\
  CropState.valid
    (CropBox.cropState
       (CropBox.run
          [CropBox.MouseDown (MouseEvent.mk 100 100 0) (Some "bottom-right"%string);
           CropBox.WindowMouseMove (Some Sample.container) (MouseEvent.mk 2000 2000 0);
           CropBox.WindowMouseUp;
           CropBox.MouseDown (MouseEvent.mk 100 100 0) None;
           CropBox.WindowMouseMove (Some Sample.container) (MouseEvent.mk (-700) 90 0)]
          (CropBox.mount Sample.crop))).
Proof.
  assert (CropState.valid Sample.crop) as Hc
    by (repeat split; vm_compute; discriminate).
  split; [exact Hc|].
  apply (crop_invariant_along_gestures Sample.crop _ Hc).
  repeat constructor.
Defined.

(** X7.  A press on the box itself moves the rectangle without resizing it:
    from a rectangle that satisfies the invariant, every pointer move of the
    gesture keeps the width and the height of the snapshot, and only [x] and
    [y] change, inside the container. *)
Theorem crop_move_keeps_size
    (s0 : CropBox.State) (e0 e : MouseEvent.t) (rect : DOMRect.t) :
  CropState.valid (CropBox.cropState s0) ->
  0 < DOMRect.width rect -> 0 < DOMRect.height rect ->
  let snapshot := CropBox.cropState s0 in
  let r := CropBox.cropState
             (CropBox.handleMouseMove (Some rect) e
                (CropBox.handleMouseDown e0 None s0)) in
  CropState.width r == CropState.width snapshot /\
  CropState.height r == CropState.height snapshot /\
  (0 <= CropState.x r <= 100 - CropState.width snapshot) /\
  (0 <= CropState.y r <= 100 - CropState.height snapshot).
Proof.
  intros (Hw & Hh & Hx & Hy) _ _ snapshot r.
  assert (CropState.width r == CropState.width snapshot) as Ew
    by (subst r; cbn; now apply clamp_id).
  assert (CropState.height r == CropState.height snapshot) as Eh
    by (subst r; cbn; now apply clamp_id).
  split; [exact Ew|]. split; [exact Eh|].
  rewrite <- Ew, <- Eh.
  pose proof (crop_clamp_valid
                (CropBox.candidate true None
                   (CropBox.dragStart (CropBox.handleMouseDown e0 None s0))
                   (fst (CropBox.delta rect e
                           (CropBox.dragStart (CropBox.handleMouseDown e0 None s0))))
                   (snd (CropBox.delta rect e
                           (CropBox.dragStart (CropBox.handleMouseDown e0 None s0))))))
    as (_ & _ & Kx & Ky).
  split; [exact Kx|exact Ky].
Qed.

Lemma crop_move_keeps_size_witness :
  CropState.valid (CropBox.cropState (CropBox.mount Sample.crop)) /\
  CropState.width
    (CropBox.cropState
       (CropBox.handleMouseMove (Some Sample.container) (MouseEvent.mk 900 40 0)
          (CropBox.handleMouseDown (MouseEvent.mk 100 100 0) None
             (CropBox.mount Sample.crop)))) == 80.
Proof.
  assert (CropState.valid (CropBox.cropState (CropBox.mount Sample.crop))) as Hc
    by (repeat split; vm_compute; discriminate).
  assert (0 < DOMRect.width Sample.container) as HW by reflexivity.
  assert (0 < DOMRect.height Sample.container) as HH by reflexivity.
  split; [exact Hc|].
  exact (proj1 (crop_move_keeps_size (CropBox.mount Sample.crop)
                  (MouseEvent.mk 100 100 0) (MouseEvent.mk 900 40 0)
                  Sample.container Hc HW HH)).
Defined.

Lemma crop_commit_flags (old new : CropBox.State) :
  CropBox.isDragging (CropBox.commit old new) = CropBox.isDragging new /\
  CropBox.resizeHandle (CropBox.commit old new) = CropBox.resizeHandle new.
Proof. unfold CropBox.commit. now destruct (CropBox.deps_changed old new). Qed.

Lemma crop_step_one_mode (s : CropBox.State) (ev : CropBox.Event) :
  CropBox.isDragging s && JS.truthy (CropBox.resizeHandle s) = false ->
  CropBox.isDragging (CropBox.step s ev)
  && JS.truthy (CropBox.resizeHandle (CropBox.step s ev)) = false.
Proof.
  intros Hs. destruct ev as [e handle|c e|]; cbn [CropBox.step];
    unfold CropBox.dispatch; when_registered Hs;
    match goal with
    | |- context [CropBox.commit s ?n] =>
        destruct (crop_commit_flags s n) as [-> ->]
    end.
  - cbn. now destruct (JS.truthy handle).
  - unfold CropBox.handleMouseMove.
    destruct c; [destruct (CropBox.delta _ _ _)|]; exact Hs.
  - reflexivity.
Qed.

Lemma crop_run_one_mode (evs : list CropBox.Event) :
  forall s, CropBox.isDragging s && JS.truthy (CropBox.resizeHandle s) = false ->
            CropBox.isDragging (CropBox.run evs s)
            && JS.truthy (CropBox.resizeHandle (CropBox.run evs s)) = false.
Proof.
  induction evs as [|ev evs IH]; intros s Hs; cbn; [exact Hs|].
  apply IH. now apply crop_step_one_mode.
Qed.

(** X8.  The crop box is never moving and resizing at once, whatever was
    pressed, and a release of the button always ends the gesture: afterwards
    neither mode is active, no window listener is left and the rectangle is
    the one the last move stored. *)
Theorem crop_one_mode_and_release
    (crop : CropState.t) (evs : list CropBox.Event) :
  let s := CropBox.run evs (CropBox.mount crop) in
  let released := CropBox.step s CropBox.WindowMouseUp in
  CropBox.isDragging s && JS.truthy (CropBox.resizeHandle s) = false /\
  CropBox.active released = false /\
  CropBox.window released = [] /\
  CropBox.cropState released = CropBox.cropState s.
Proof.
  intros s released.
  split; [apply crop_run_one_mode; reflexivity|].
  assert (CropBox.window s = CropBox.effect s []) as Hw
    by (apply crop_run_listeners; reflexivity).
  assert (CropBox.window released = CropBox.effect released []) as Hr
    by (apply crop_step_listeners; exact Hw).
  assert (CropBox.active released = false) as Ha.
  { subst released. cbn [CropBox.step]. unfold CropBox.dispatch.
    destruct (Window.registered _ (CropBox.window s)) eqn:Hreg.
    - unfold CropBox.active.
      destruct (crop_commit_flags s (CropBox.handleMouseUp s)) as [-> ->].
      reflexivity.
    - rewrite Hw in Hreg. unfold CropBox.effect in Hreg.
      destruct (CropBox.active s); [discriminate Hreg|reflexivity]. }
  split; [exact Ha|]. split.
  - rewrite Hr. unfold CropBox.effect. now rewrite Ha.
  - subst released. cbn [CropBox.step]. unfold CropBox.dispatch.
    destruct (Window.registered _ _); [|reflexivity].
    now rewrite crop_commit_cropState.
Qed.

(** ** What is shown *)

(** X9.  The delete button of the text clears the text and nothing else:
    colour, size, font and position are kept, and with an empty text the host
    no longer shows the overlay, whatever its props. *)
Theorem delete_clears_text_only (p : RightPanel.Props) (s : DraggableText.State) :
  let before := DraggableText.textOverlay s in
  let after := DraggableText.textOverlay (DraggableText.handleDelete s) in
  TextOverlayState.text after = EmptyString /\
  TextOverlayState.color after = TextOverlayState.color before /\
  TextOverlayState.size after = TextOverlayState.size before /\
  TextOverlayState.font after = TextOverlayState.font before /\
  TextOverlayState.x after = TextOverlayState.x before /\
  TextOverlayState.y after = TextOverlayState.y before /\
  RightPanel.showTextOverlay p after = false /\
  DraggableText.handleDelete (DraggableText.handleDelete s)
  = DraggableText.handleDelete s.
Proof.
  intros before after. repeat split.
  unfold RightPanel.showTextOverlay.
  destruct (RightPanel.mode p), (RightPanel.editFunction p); reflexivity.
Qed.

(** X10.  At most one of the text overlay, the crop box and the masking
    canvas is shown, the comparator is never shown together with any of
    them, and zooming and panning are off whenever the comparator is shown
    or a video is the result. *)
Theorem one_tool_at_a_time (p : RightPanel.Props) (overlay : TextOverlayState.t) :
  RightPanel.showTextOverlay p overlay && RightPanel.showCropBox p = false /\
  RightPanel.showTextOverlay p overlay && RightPanel.showMaskingCanvas p = false /\
  RightPanel.showCropBox p && RightPanel.showMaskingCanvas p = false /\
  (RightPanel.showComparator p = true ->
   RightPanel.showTextOverlay p overlay = false /\
   RightPanel.showCropBox p = false /\
   RightPanel.showMaskingCanvas p = false /\
   RightPanel.canZoomPan p = false) /\
  (JS.truthy (RightPanel.generatedVideoUrl p) = true ->
   RightPanel.canZoomPan p = false).
Proof.
  unfold RightPanel.showTextOverlay, RightPanel.showCropBox,
    RightPanel.showMaskingCanvas, RightPanel.canZoomPan, RightPanel.showComparator,
    RightPanel.isClientSideToolActive.
  destruct (RightPanel.mode p), (RightPanel.editFunction p);
    destruct (JS.truthy (RightPanel.currentImage p)),
      (RightPanel.isMaskingActive p), (RightPanel.showComparatorProp p),
      (JS.truthy (RightPanel.comparisonImage p)),
      (JS.truthy (RightPanel.generatedVideoUrl p)),
      (JS.truthy (RightPanel.hasResult p)),
      (JS.truthy (Some (TextOverlayState.text overlay)));
    cbn; repeat split; intros; try discriminate; reflexivity.
Qed.

Lemma one_tool_at_a_time_witness :
  RightPanel.showComparator
    (RightPanel.mkProps (Some ["iVBOR"%string]) None (Some "R0lGOD"%string) EDIT
       RETOUCH false 0 true (fun key => key)) = true /\
  RightPanel.canZoomPan
    (RightPanel.mkProps (Some ["iVBOR"%string]) None (Some "R0lGOD"%string) EDIT
       RETOUCH false 0 true (fun key => key)) = false.
Proof.
  split; [reflexivity|].
  exact (proj2 (proj2 (proj2 (proj1 (proj2 (proj2 (proj2
           (one_tool_at_a_time
              (RightPanel.mkProps (Some ["iVBOR"%string]) None
                 (Some "R0lGOD"%string) EDIT RETOUCH false 0 true (fun key => key))
              Sample.overlay)))) eq_refl)))).
Defined.

(** ** Zooming and panning the image *)

Lemma view_commit_cells (old new : RightPanel.View) :
  RightPanel.transform (RightPanel.view_commit old new) = RightPanel.transform new /\
  RightPanel.initialImageMetrics (RightPanel.view_commit old new)
  = RightPanel.initialImageMetrics new /\
  RightPanel.isPanning (RightPanel.view_commit old new) = RightPanel.isPanning new /\
  RightPanel.panStart (RightPanel.view_commit old new) = RightPanel.panStart new.
Proof.
  unfold RightPanel.view_commit.
  destruct (negb (Bool.eqb _ _)); repeat split.
Qed.

Lemma handleWheel_scale (p : RightPanel.Props) (c : option DOMRect.t)
    (e : WheelEvent.t) (s : RightPanel.View) :
  0.5 <= Transform.scale (RightPanel.transform s) <= 10 ->
  0.5 <= Transform.scale (RightPanel.transform (RightPanel.handleWheel p c e s)) <= 10.
Proof.
  intros Hs. unfold RightPanel.handleWheel.
  destruct (negb (RightPanel.canZoomPan p)); [exact Hs|].
  destruct c as [rect|]; [|exact Hs].
  cbn. apply clamp_between. lra.
Qed.

Lemma updateFit_scale (i : option RightPanel.ImgElement)
    (c : option RightPanel.Container) (s : RightPanel.View) :
  0.5 <= Transform.scale (RightPanel.transform s) <= 10 ->
  0.5 <= Transform.scale (RightPanel.transform (RightPanel.updateFit i c s)) <= 10.
Proof.
  intros Hs. unfold RightPanel.updateFit.
  destruct i as [i|]; [|exact Hs]. destruct c as [c|]; [|exact Hs].
  destruct (negb (RightPanel.complete i) || _)%bool; [exact Hs|].
  destruct (negb (Qle_bool _ _)); cbn; lra.
Qed.

Lemma view_step_scale (s : RightPanel.View) (ev : RightPanel.ViewEvent) :
  0.5 <= Transform.scale (RightPanel.transform s) <= 10 ->
  0.5 <= Transform.scale (RightPanel.transform (RightPanel.view_step s ev)) <= 10.
Proof.
  intros Hs.
  destruct ev as [p c e|p onTool e|e| | |i c|]; cbn [RightPanel.view_step];
    unfold RightPanel.view_dispatch; when_registered Hs;
    match goal with
    | |- context [RightPanel.view_commit s ?n] =>
        destruct (view_commit_cells s n) as (-> & _)
    end.
  - now apply handleWheel_scale.
  - unfold RightPanel.handleMouseDown.
    destruct (negb (RightPanel.canZoomPan p) || _)%bool; [exact Hs|].
    destruct onTool; exact Hs.
  - unfold RightPanel.handleMouseMove.
    destruct (RightPanel.isPanning s); exact Hs.
  - exact Hs.
  - exact Hs.
  - now apply updateFit_scale.
  - cbn. lra.
Qed.

(** X11.  From the first render on, through every sequence of wheel events,
    pans, fits and resets, the scale of the transform stays in [0.5,10]. *)
Theorem scale_stays_in_range (evs : list RightPanel.ViewEvent) :
  Forall RightPanel.fit_sized evs ->
  0.5 <= Transform.scale
           (RightPanel.transform (RightPanel.view_run evs RightPanel.view_initial))
  <= 10.
Proof.
  intros _.
  assert (forall s, 0.5 <= Transform.scale (RightPanel.transform s) <= 10 ->
                    0.5 <= Transform.scale
                             (RightPanel.transform (RightPanel.view_run evs s)) <= 10)
    as H.
  { induction evs as [|ev evs IH]; intros s Hs; cbn; [exact Hs|].
    apply IH. now apply view_step_scale. }
  apply H. cbn. lra.
Qed.

Lemma scale_stays_in_range_witness :
  Forall RightPanel.fit_sized
    [RightPanel.Fit (Some (RightPanel.mkImg true 1600 800))
       (Some (RightPanel.mkContainer 800 600));
     RightPanel.Wheel Sample.props (Some (DOMRect.mk 0 0 800 600))
       (WheelEvent.mk 400 200 (-20000));
     RightPanel.Wheel Sample.props (Some (DOMRect.mk 0 0 800 600))
       (WheelEvent.mk 10 10 90000)] /\
  Transform.scale
    (RightPanel.transform
       (RightPanel.view_run
          [RightPanel.Fit (Some (RightPanel.mkImg true 1600 800))
             (Some (RightPanel.mkContainer 800 600));
           RightPanel.Wheel Sample.props (Some (DOMRect.mk 0 0 800 600))
             (WheelEvent.mk 400 200 (-20000));
           RightPanel.Wheel Sample.props (Some (DOMRect.mk 0 0 800 600))
             (WheelEvent.mk 10 10 90000)]
          RightPanel.view_initial)) <= 10.
Proof.
  assert (Forall RightPanel.fit_sized
            [RightPanel.Fit (Some (RightPanel.mkImg true 1600 800))
               (Some (RightPanel.mkContainer 800 600));
             RightPanel.Wheel Sample.props (Some (DOMRect.mk 0 0 800 600))
               (WheelEvent.mk 400 200 (-20000));
             RightPanel.Wheel Sample.props (Some (DOMRect.mk 0 0 800 600))
               (WheelEvent.mk 10 10 90000)]) as Hevs
    by (repeat constructor).
  split; [exact Hevs|].
  exact (proj2 (scale_stays_in_range _ Hevs)).
Defined.

(** X12.  A pan is a pure translation by the pointer's offset from the
    press: once a press with the primary button is accepted, every move
    leaves the scale as it was and puts the translation at the translation
    of the press plus that offset, whatever moves came before; a move back
    to the point of the press restores the transform. *)
Theorem pan_translates_from_press
    (p : RightPanel.Props) (e0 e1 e2 : MouseEvent.t) (s : RightPanel.View) :
  RightPanel.canZoomPan p = true ->
  MouseEvent.button e0 = 0%Z ->
  let pressed := RightPanel.handleMouseDown p false e0 s in
  let moved := RightPanel.handleMouseMove e2 (RightPanel.handleMouseMove e1 pressed) in
  RightPanel.isPanning pressed = true /\
  RightPanel.transform pressed = RightPanel.transform s /\
  moved = RightPanel.handleMouseMove e2 pressed /\
  Transform.scale (RightPanel.transform moved)
  = Transform.scale (RightPanel.transform s) /\
  Transform.x (RightPanel.transform moved)
  = Transform.x (RightPanel.transform s)
    + (MouseEvent.clientX e2 - MouseEvent.clientX e0) /\
  Transform.y (RightPanel.transform moved)
  = Transform.y (RightPanel.transform s)
    + (MouseEvent.clientY e2 - MouseEvent.clientY e0) /\
  (MouseEvent.clientX e2 == MouseEvent.clientX e0 ->
   MouseEvent.clientY e2 == MouseEvent.clientY e0 ->
   Transform.x (RightPanel.transform moved) == Transform.x (RightPanel.transform s) /\
   Transform.y (RightPanel.transform moved) == Transform.y (RightPanel.transform s)).
Proof.
  intros Hzoom Hb pressed moved.
  assert (pressed
          = RightPanel.mkView (RightPanel.transform s)
              (RightPanel.initialImageMetrics s) true
              (PanStart.mk (MouseEvent.clientX e0) (MouseEvent.clientY e0)
                 (Transform.x (RightPanel.transform s))
                 (Transform.y (RightPanel.transform s)))
              (RightPanel.window s)) as Ep.
  { subst pressed. unfold RightPanel.handleMouseDown.
    rewrite Hzoom, Hb. reflexivity. }
  clearbody pressed. subst pressed. subst moved. cbn.
  do 6 (split; [reflexivity|]).
  intros Ex Ey. rewrite Ex, Ey. split; ring.
Qed.

Lemma pan_translates_from_press_witness :
  RightPanel.canZoomPan Sample.props = true /\
  Transform.x
    (RightPanel.transform
       (RightPanel.handleMouseMove (MouseEvent.mk 340 260 0)
          (RightPanel.handleMouseMove (MouseEvent.mk 10 900 0)
             (RightPanel.handleMouseDown Sample.props false (MouseEvent.mk 300 200 0)
                (RightPanel.mkView (Transform.mk 2 100 0) (ImageMetrics.mk 800 400 0 0)
                   false (PanStart.mk 0 0 0 0) [])))))
  = 100 + (340 - 300).
Proof.
  split; [reflexivity|].
  exact (proj1 (proj2 (proj2 (proj2 (proj2
           (pan_translates_from_press Sample.props (MouseEvent.mk 300 200 0)
              (MouseEvent.mk 10 900 0) (MouseEvent.mk 340 260 0)
              (RightPanel.mkView (Transform.mk 2 100 0) (ImageMetrics.mk 800 400 0 0)
                 false (PanStart.mk 0 0 0 0) [])
              eq_refl eq_refl)))))).
Defined.

Lemma pan_cleanup_effect (s : RightPanel.View) :
  RightPanel.pan_cleanup (RightPanel.pan_effect s []) = [].
Proof. unfold RightPanel.pan_effect. destruct (RightPanel.isPanning s); reflexivity. Qed.

Lemma view_commit_listeners (old new : RightPanel.View) :
  RightPanel.window old = RightPanel.pan_effect old [] ->
  RightPanel.window new = RightPanel.window old ->
  RightPanel.window (RightPanel.view_commit old new)
  = RightPanel.pan_effect (RightPanel.view_commit old new) [].
Proof.
  intros Hold Hsame. unfold RightPanel.view_commit.
  destruct (negb (Bool.eqb _ _)) eqn:D.
  - cbn [RightPanel.window]. rewrite Hsame, Hold, pan_cleanup_effect. reflexivity.
  - rewrite Hsame, Hold. apply negb_false_iff, Bool.eqb_prop in D.
    unfold RightPanel.pan_effect. now rewrite D.
Qed.

Lemma view_handlers_keep_window (s : RightPanel.View) :
  (forall p c e, RightPanel.window (RightPanel.handleWheel p c e s)
                 = RightPanel.window s) /\
  (forall p onTool e, RightPanel.window (RightPanel.handleMouseDown p onTool e s)
                      = RightPanel.window s) /\
  (forall e, RightPanel.window (RightPanel.handleMouseMove e s) = RightPanel.window s) /\
  (forall i c, RightPanel.window (RightPanel.updateFit i c s) = RightPanel.window s).
Proof.
  repeat split.
  - intros p c e. unfold RightPanel.handleWheel.
    destruct (negb (RightPanel.canZoomPan p)); [reflexivity|].
    destruct c; reflexivity.
  - intros p onTool e. unfold RightPanel.handleMouseDown.
    destruct (negb (RightPanel.canZoomPan p) || _)%bool; [reflexivity|].
    destruct onTool; reflexivity.
  - intros e. unfold RightPanel.handleMouseMove.
    destruct (RightPanel.isPanning s); reflexivity.
  - intros i c. unfold RightPanel.updateFit.
    destruct i as [i|]; [|reflexivity]. destruct c as [c|]; [|reflexivity].
    destruct (negb (RightPanel.complete i) || _)%bool; [reflexivity|].
    destruct (negb (Qle_bool _ _)); reflexivity.
Qed.

Lemma view_step_listeners (s : RightPanel.View) (ev : RightPanel.ViewEvent) :
  RightPanel.window s = RightPanel.pan_effect s [] ->
  RightPanel.window (RightPanel.view_step s ev)
  = RightPanel.pan_effect (RightPanel.view_step s ev) [].
Proof.
  intros Hs. destruct (view_handlers_keep_window s) as (Kw & Kd & Km & Kf).
  destruct ev as [p c e|p onTool e|e| | |i c|]; cbn [RightPanel.view_step];
    unfold RightPanel.view_dispatch; when_registered Hs;
    apply view_commit_listeners; try exact Hs; auto.
Qed.

Lemma view_run_listeners (evs : list RightPanel.ViewEvent) :
  forall s, RightPanel.window s = RightPanel.pan_effect s [] ->
            RightPanel.window (RightPanel.view_run evs s)
            = RightPanel.pan_effect (RightPanel.view_run evs s) [].
Proof.
  induction evs as [|ev evs IH]; intros s Hs; cbn; [exact Hs|].
  apply IH. now apply view_step_listeners.
Qed.

(** X13.  The pan registers its three window listeners (mousemove, mouseup,
    mouseleave) exactly while a pan is under way, and a release of the
    button or the pointer leaving the window ends it: afterwards no pan is
    active, no listener is left and the transform is the one of the last
    move. *)
Theorem pan_listeners_follow_the_pan (evs : list RightPanel.ViewEvent) :
  let s := RightPanel.view_run evs RightPanel.view_initial in
  (RightPanel.isPanning s = false -> RightPanel.window s = []) /\
  (RightPanel.isPanning s = true ->
   RightPanel.window s
   = [("mousemove", "handleMouseMove"); ("mouseup", "handleMouseUp");
      ("mouseleave", "handleMouseUp")]%string) /\
  (forall ev, ev = RightPanel.WindowMouseUp \/ ev = RightPanel.WindowMouseLeave ->
     RightPanel.isPanning (RightPanel.view_step s ev) = false /\
     RightPanel.window (RightPanel.view_step s ev) = [] /\
     RightPanel.transform (RightPanel.view_step s ev) = RightPanel.transform s).
Proof.
  intros s.
  assert (RightPanel.window s = RightPanel.pan_effect s []) as Hw
    by (apply view_run_listeners; reflexivity).
  split; [|split].
  - intros Hp. rewrite Hw. unfold RightPanel.pan_effect. now rewrite Hp.
  - intros Hp. rewrite Hw. unfold RightPanel.pan_effect. now rewrite Hp.
  - intros ev Hev.
    pose proof (view_step_listeners s ev Hw) as Hr.
    assert (RightPanel.isPanning (RightPanel.view_step s ev) = false /\
            RightPanel.transform (RightPanel.view_step s ev) = RightPanel.transform s)
      as [Hp Ht].
    { destruct Hev as [-> | ->]; cbn [RightPanel.view_step];
        unfold RightPanel.view_dispatch;
        (destruct (Window.registered _ (RightPanel.window s)) eqn:Hreg;
         [ destruct (view_commit_cells s (RightPanel.handleMouseUp s))
             as (-> & _ & -> & _); split; reflexivity
         | rewrite Hw in Hreg; unfold RightPanel.pan_effect in Hreg;
           destruct (RightPanel.isPanning s);
           [discriminate Hreg|split; reflexivity] ]). }
    split; [exact Hp|]. split; [|exact Ht].
    rewrite Hr. unfold RightPanel.pan_effect. now rewrite Hp.
Qed.

Lemma pan_listeners_follow_the_pan_witness :
  RightPanel.isPanning
    (RightPanel.view_run
       [RightPanel.MouseDown Sample.props false (MouseEvent.mk 300 200 0);
        RightPanel.WindowMouseMove (MouseEvent.mk 340 260 0)]
       RightPanel.view_initial) = true /\
  RightPanel.window
    (RightPanel.view_step
       (RightPanel.view_run
          [RightPanel.MouseDown Sample.props false (MouseEvent.mk 300 200 0);
           RightPanel.WindowMouseMove (MouseEvent.mk 340 260 0)]
          RightPanel.view_initial)
       RightPanel.WindowMouseLeave) = [].
Proof.
  split; [reflexivity|].
  exact (proj1 (proj2 (proj2 (proj2 (pan_listeners_follow_the_pan
           [RightPanel.MouseDown Sample.props false (MouseEvent.mk 300 200 0);
            RightPanel.WindowMouseMove (MouseEvent.mk 340 260 0)]))
           RightPanel.WindowMouseLeave (or_intror eq_refl)))).
Defined.

(** ** Fitting the image *)

Lemma inject_Z_pos (z : Z) : (0 < z)%Z -> 0 < inject_Z z.
Proof. intros H. change 0 with (inject_Z 0). now rewrite <- Zlt_Qlt. Qed.

Lemma fit_height_filled (CW CH NW NH : Q) :
  0 < CW -> 0 < CH -> 0 < NW -> 0 < NH ->
  NW / NH < CW / CH -> CH * (NW / NH) <= CW.
Proof.
  intros HCW HCH HNW HNH H. apply Qlt_le_weak.
  assert (CH * (CW / CH) == CW) as E by (field; lra).
  rewrite <- E. now apply Qmult_lt_l.
Qed.

Lemma fit_width_filled (CW CH NW NH : Q) :
  0 < CW -> 0 < CH -> 0 < NW -> 0 < NH ->
  CW / CH <= NW / NH -> CW / (NW / NH) <= CH.
Proof.
  intros HCW HCH HNW HNH H.
  assert (0 < NW / NH) as Hr by (apply Qlt_shift_div_l; lra).
  apply Qle_shift_div_r; [exact Hr|].
  assert (CH * (CW / CH) == CW) as E by (field; lra).
  rewrite <- E at 1. now apply Qmult_le_l.
Qed.

(** X14.  For a loaded image and a container with positive sizes, the fit
    letterboxes the image: its box has the aspect ratio of the image, lies
    inside the container, fills the container's width or its height, and is
    centred horizontally with equal, non-negative margins. *)
Theorem fit_letterboxes
    (i : RightPanel.ImgElement) (c : RightPanel.Container) (s : RightPanel.View) :
  RightPanel.complete i = true ->
  (0 < RightPanel.naturalWidth i)%Z -> (0 < RightPanel.naturalHeight i)%Z ->
  (0 < RightPanel.clientWidth c)%Z -> (0 < RightPanel.clientHeight c)%Z ->
  let m := RightPanel.initialImageMetrics (RightPanel.updateFit (Some i) (Some c) s) in
  let CW := inject_Z (RightPanel.clientWidth c) in
  let CH := inject_Z (RightPanel.clientHeight c) in
  (0 < ImageMetrics.width m /\ ImageMetrics.width m <= CW) /\
  (0 < ImageMetrics.height m /\ ImageMetrics.height m <= CH) /\
  (ImageMetrics.width m == CW \/ ImageMetrics.height m == CH) /\
  ImageMetrics.width m * inject_Z (RightPanel.naturalHeight i)
  == ImageMetrics.height m * inject_Z (RightPanel.naturalWidth i) /\
  0 <= ImageMetrics.initialX m /\
  ImageMetrics.initialX m + ImageMetrics.width m + ImageMetrics.initialX m == CW.
Proof.
  intros Hc Hnw Hnh Hcw Hch m CW CH.
  pose proof (inject_Z_pos _ Hnw) as HNW. pose proof (inject_Z_pos _ Hnh) as HNH.
  pose proof (inject_Z_pos _ Hcw) as HCW. pose proof (inject_Z_pos _ Hch) as HCH.
  set (NW := inject_Z (RightPanel.naturalWidth i)) in *.
  set (NH := inject_Z (RightPanel.naturalHeight i)) in *.
  fold CW CH in HCW, HCH.
  assert (0 < NW / NH) as Hr by (apply Qlt_shift_div_l; lra).
  subst m. unfold RightPanel.updateFit. rewrite Hc.
  destruct (Z.eqb_spec (RightPanel.naturalWidth i) 0) as [E|_]; [lia|].
  cbn [negb orb]. fold CW CH NW NH.
  destruct (Qle_bool (CW / CH) (NW / NH)) eqn:Hcmp; cbn.
  - apply Qle_bool_iff in Hcmp.
    pose proof (fit_width_filled CW CH NW NH HCW HCH HNW HNH Hcmp) as Hfit.
    assert (0 < CW / (NW / NH)) as Hpos by (apply Qlt_shift_div_l; lra).
    split; [split; lra|]. split; [split; lra|].
    split; [left; reflexivity|].
    split; [field; split; lra|].
    split; [|field].
    assert ((CW - CW) / 2 == 0) as -> by field. lra.
  - assert (NW / NH < CW / CH) as Hlt.
    { apply Qnot_le_lt. intros Hle. apply Qle_bool_iff in Hle. congruence. }
    pose proof (fit_height_filled CW CH NW NH HCW HCH HNW HNH Hlt) as Hfit.
    assert (0 < CH * (NW / NH)) as Hpos by (apply Qmult_lt_0_compat; lra).
    split; [split; lra|]. split; [split; lra|].
    split; [right; reflexivity|].
    split; [field; lra|].
    split; [|field; lra].
    apply Qle_shift_div_l; lra.
Qed.

Lemma fit_letterboxes_witness :
  RightPanel.complete (RightPanel.mkImg true 600 1200) = true /\
  ImageMetrics.width
    (RightPanel.initialImageMetrics
       (RightPanel.updateFit (Some (RightPanel.mkImg true 600 1200))
          (Some (RightPanel.mkContainer 800 600)) RightPanel.view_initial))
  <= inject_Z 800.
Proof.
  split; [reflexivity|].
  exact (proj2 (proj1 (fit_letterboxes (RightPanel.mkImg true 600 1200)
                         (RightPanel.mkContainer 800 600) RightPanel.view_initial
                         eq_refl eq_refl eq_refl eq_refl eq_refl))).
Defined.

(** X15.  Nothing is left to reset after a reset or after a fit: in both
    cases the view is not transformed, so the fit-to-screen button is not
    shown; and with zooming enabled any scale other than 1 makes the view
    transformed. *)
Theorem reset_and_fit_are_untransformed
    (p : RightPanel.Props) (i : RightPanel.ImgElement) (c : RightPanel.Container)
    (s : RightPanel.View) :
  RightPanel.complete i = true ->
  (0 < RightPanel.naturalWidth i)%Z -> (0 < RightPanel.naturalHeight i)%Z ->
  (0 < RightPanel.clientWidth c)%Z -> (0 < RightPanel.clientHeight c)%Z ->
  RightPanel.isTransformed p (RightPanel.handleResetTransform s) = false /\
  RightPanel.isTransformed p (RightPanel.updateFit (Some i) (Some c) s) = false /\
  (RightPanel.canZoomPan p = true ->
   ~ Transform.scale (RightPanel.transform s) == 1 ->
   RightPanel.isTransformed p s = true).
Proof.
  intros Hc Hnw _ _ _.
  assert (forall a b x y w,
             RightPanel.isTransformed p
               (RightPanel.mkView (Transform.mk 1 x y) (ImageMetrics.mk a b x y)
                  (RightPanel.isPanning s) (RightPanel.panStart s) w) = false) as Hfix.
  { intros a b x y w. unfold RightPanel.isTransformed. cbn.
    rewrite !Qeq_bool_refl. cbn. apply andb_false_r. }
  split; [|split].
  - unfold RightPanel.isTransformed, RightPanel.handleResetTransform. cbn.
    rewrite !Qeq_bool_refl. cbn. apply andb_false_r.
  - unfold RightPanel.updateFit. rewrite Hc.
    destruct (Z.eqb_spec (RightPanel.naturalWidth i) 0) as [E|_]; [lia|].
    cbn [negb orb]. destruct (negb (Qle_bool _ _)); apply Hfix.
  - intros Hzoom Hscale. unfold RightPanel.isTransformed. rewrite Hzoom.
    destruct (Qeq_bool (Transform.scale (RightPanel.transform s)) 1) eqn:E;
      [apply Qeq_bool_iff in E; contradiction|reflexivity].
Qed.

Lemma reset_and_fit_are_untransformed_witness :
  RightPanel.complete (RightPanel.mkImg true 600 1200) = true /\
  RightPanel.isTransformed Sample.props
    (RightPanel.updateFit (Some (RightPanel.mkImg true 600 1200))
       (Some (RightPanel.mkContainer 800 600))
       (RightPanel.mkView (Transform.mk 3 7 9) (ImageMetrics.mk 0 0 0 0)
          false (PanStart.mk 0 0 0 0) [])) = false.
Proof.
  split; [reflexivity|].
  exact (proj1 (proj2 (reset_and_fit_are_untransformed Sample.props
                         (RightPanel.mkImg true 600 1200)
                         (RightPanel.mkContainer 800 600)
                         (RightPanel.mkView (Transform.mk 3 7 9)
                            (ImageMetrics.mk 0 0 0 0) false (PanStart.mk 0 0 0 0) [])
                         eq_refl eq_refl eq_refl eq_refl eq_refl))).
Defined.

(** X16.  While a video is the result, while the comparator is shown or
    while there is no result at all, the wheel and the press on the image do
    nothing: the view stays exactly as it is. *)
Theorem zoom_and_pan_disabled
    (p : RightPanel.Props) (container : option DOMRect.t) (w : WheelEvent.t)
    (onTool : bool) (e : MouseEvent.t) (s : RightPanel.View) :
  JS.truthy (RightPanel.generatedVideoUrl p) = true
  \/ RightPanel.showComparator p = true
  \/ JS.truthy (RightPanel.hasResult p) = false ->
  RightPanel.handleWheel p container w s = s /\
  RightPanel.handleMouseDown p onTool e s = s.
Proof.
  intros H.
  assert (RightPanel.canZoomPan p = false) as Hz.
  { unfold RightPanel.canZoomPan. destruct H as [-> | [-> | ->]].
    - now destruct (JS.truthy (RightPanel.hasResult p)).
    - now destruct (JS.truthy (RightPanel.hasResult p)),
        (JS.truthy (RightPanel.generatedVideoUrl p)).
    - reflexivity. }
  unfold RightPanel.handleWheel, RightPanel.handleMouseDown.
  rewrite Hz. split; reflexivity.
Qed.

Lemma zoom_and_pan_disabled_witness :
  JS.truthy
    (RightPanel.generatedVideoUrl
       (RightPanel.mkProps None (Some "blob:video"%string) None VIDEO RETOUCH
          false 0 false (fun key => key))) = true /\
  RightPanel.handleWheel
    (RightPanel.mkProps None (Some "blob:video"%string) None VIDEO RETOUCH
       false 0 false (fun key => key))
    (Some Sample.container) (WheelEvent.mk 10 10 (-300)) RightPanel.view_initial
  = RightPanel.view_initial.
Proof.
  split; [reflexivity|].
  exact (proj1 (zoom_and_pan_disabled
                  (RightPanel.mkProps None (Some "blob:video"%string) None VIDEO
                     RETOUCH false 0 false (fun key => key))
                  (Some Sample.container) (WheelEvent.mk 10 10 (-300)) false
                  (MouseEvent.mk 0 0 0) RightPanel.view_initial
                  (or_introl eq_refl))).
Defined.

(** ** How an export ends *)

(** X17.  When the image of the waiting export loads, a 2D context exists
    and nothing throws, exactly one link is clicked and no alert is shown:
    the file is named [ai_image_studio_download.<format>], the data URL has
    the type [image/<format>] and the quality divided by 100, and it encodes
    a canvas of the natural size times the scale. *)
Theorem export_success_clicks_one_link
    (browser : RightPanel.Browser) (image : Image.t) (s : RightPanel.ExportState)
    (job : RightPanel.Job) (rest : list RightPanel.Job) :
  RightPanel.pending s = job :: rest ->
  RightPanel.context2d browser = true ->
  RightPanel.drawingError browser = None ->
  let options := RightPanel.options job in
  let s' := RightPanel.settle browser (RightPanel.Loaded image) s in
  exists link,
    RightPanel.clicked s' = RightPanel.clicked s ++ [link] /\
    RightPanel.alerts s' = RightPanel.alerts s /\
    RightPanel.download link
    = ("ai_image_studio_download."
       ++ format_name (DownloadOptions.format options))%string /\
    RightPanel.mimeType (RightPanel.href link)
    = ("image/" ++ format_name (DownloadOptions.format options))%string /\
    RightPanel.encoderQuality (RightPanel.href link)
    = inject_Z (DownloadOptions.quality options) / 100 /\
    Canvas.width (RightPanel.content (RightPanel.href link))
    = (Image.naturalWidth image * DownloadOptions.scale options)%Z /\
    Canvas.height (RightPanel.content (RightPanel.href link))
    = (Image.naturalHeight image * DownloadOptions.scale options)%Z.
Proof.
  intros Hp Hctx Herr options s'. subst s'.
  unfold RightPanel.settle, RightPanel.onload. rewrite Hp, Hctx, Herr.
  cbn [negb]. eexists. cbn.
  split; [reflexivity|]. split; [reflexivity|].
  split; [reflexivity|]. split; [reflexivity|]. split; [reflexivity|].
  fold options. destruct (prepared_size options image) as [Ew Eh].
  cbn in Ew, Eh. split; assumption.
Qed.

Lemma export_success_clicks_one_link_witness :
  RightPanel.pending
    (RightPanel.handleDownloadImage Sample.props (DownloadOptions.mk 2 jpeg 90)
       RightPanel.export_initial)
  = [RightPanel.mkJob (DownloadOptions.mk 2 jpeg 90) "data:image/png;base64,iVBOR"
       (fun key => key)] /\
  map RightPanel.download
    (RightPanel.clicked
       (RightPanel.settle (RightPanel.mkBrowser true None)
          (RightPanel.Loaded (Image.mk 500 300 (fun _ _ _ _ => Canvas.white)))
          (RightPanel.handleDownloadImage Sample.props (DownloadOptions.mk 2 jpeg 90)
             RightPanel.export_initial)))
  = ["ai_image_studio_download.jpeg"%string].
Proof.
  split; [reflexivity|].
  destruct (export_success_clicks_one_link (RightPanel.mkBrowser true None)
              (Image.mk 500 300 (fun _ _ _ _ => Canvas.white))
              (RightPanel.handleDownloadImage Sample.props
                 (DownloadOptions.mk 2 jpeg 90) RightPanel.export_initial)
              _ [] eq_refl eq_refl eq_refl) as (link & Hc & _ & Hd & _).
  rewrite Hc. cbn. rewrite Hd. reflexivity.
Defined.

(** X18.  When the waiting export fails, no link is clicked and exactly one
    alert is shown, made of the translated [errorOccurred] text and the
    message of the failure: the load error, the missing canvas context, or
    the exception thrown while drawing; the failed export no longer waits. *)
Theorem export_failure_alerts_once
    (browser : RightPanel.Browser) (s : RightPanel.ExportState)
    (job : RightPanel.Job) (rest : list RightPanel.Job) :
  RightPanel.pending s = job :: rest ->
  let alerted (s' : RightPanel.ExportState) (message : string) :=
    RightPanel.clicked s' = RightPanel.clicked s /\
    RightPanel.alerts s'
    = RightPanel.alerts s
      ++ [(RightPanel.translate job "errorOccurred" ++ ": " ++ message)%string] /\
    RightPanel.pending s' = rest /\
    RightPanel.isProcessingDownload s' = false in
  (forall event,
      alerted (RightPanel.settle browser (RightPanel.LoadError event) s)
        ("Failed to load image for processing: " ++ event)%string) /\
  (forall image,
      RightPanel.context2d browser = false ->
      alerted (RightPanel.settle browser (RightPanel.Loaded image) s)
        "Canvas context could not be created."%string) /\
  (forall image message,
      RightPanel.context2d browser = true ->
      RightPanel.drawingError browser = Some message ->
      alerted (RightPanel.settle browser (RightPanel.Loaded image) s) message).
Proof.
  intros Hp alerted. subst alerted. cbv beta.
  split; [|split].
  - intros event. unfold RightPanel.settle. rewrite Hp. cbn. repeat split.
  - intros image Hctx. unfold RightPanel.settle, RightPanel.onload.
    rewrite Hp, Hctx. cbn. repeat split.
  - intros image message Hctx Herr. unfold RightPanel.settle, RightPanel.onload.
    rewrite Hp, Hctx, Herr. cbn. repeat split.
Qed.

Lemma export_failure_alerts_once_witness :
  RightPanel.pending
    (RightPanel.handleDownloadImage Sample.props (DownloadOptions.mk 2 jpeg 90)
       RightPanel.export_initial)
  = [RightPanel.mkJob (DownloadOptions.mk 2 jpeg 90) "data:image/png;base64,iVBOR"
       (fun key => key)] /\
  RightPanel.alerts
    (RightPanel.settle (RightPanel.mkBrowser false None)
       (RightPanel.Loaded (Image.mk 500 300 (fun _ _ _ _ => Canvas.white)))
       (RightPanel.handleDownloadImage Sample.props (DownloadOptions.mk 2 jpeg 90)
          RightPanel.export_initial))
  = ["errorOccurred: Canvas context could not be created."%string].
Proof.
  split; [reflexivity|].
  exact (proj1 (proj2 (proj1 (proj2 (export_failure_alerts_once
           (RightPanel.mkBrowser false None)
           (RightPanel.handleDownloadImage Sample.props
              (DownloadOptions.mk 2 jpeg 90) RightPanel.export_initial)
           _ [] eq_refl))
           (Image.mk 500 300 (fun _ _ _ _ => Canvas.white)) eq_refl))).
Defined.

(** X19.  Without a current image no export starts: when there are no
    generated images, when the selected index is past their end, or when the
    selected image is the empty string, both the modal's button and a direct
    call leave the state as it is. *)
Theorem export_needs_an_image
    (p : RightPanel.Props) (options : DownloadOptions.t) (m : DownloadModal.State)
    (s : RightPanel.ExportState) :
  RightPanel.generatedImages p = None
  \/ (exists images,
         RightPanel.generatedImages p = Some images /\
         (length images <= RightPanel.selectedIndex p)%nat)
  \/ (exists images,
         RightPanel.generatedImages p = Some images /\
         nth_error images (RightPanel.selectedIndex p) = Some EmptyString) ->
  RightPanel.handleDownloadImage p options s = s /\
  DownloadModal.handleDownloadClick (RightPanel.isProcessingDownload s)
    (RightPanel.handleDownloadImage p) m s = s.
Proof.
  intros H.
  assert (JS.truthy (RightPanel.currentImage p) = false) as Himg.
  { unfold RightPanel.currentImage.
    destruct H as [-> | [(images & -> & Hlen) | (images & -> & Hnth)]].
    - reflexivity.
    - apply nth_error_None in Hlen. now rewrite Hlen.
    - now rewrite Hnth. }
  assert (forall o, RightPanel.handleDownloadImage p o s = s) as Hsame.
  { intros o. unfold RightPanel.handleDownloadImage. rewrite Himg.
    now rewrite orb_true_r. }
  split; [apply Hsame|].
  unfold DownloadModal.handleDownloadClick.
  destruct (RightPanel.isProcessingDownload s); [reflexivity|apply Hsame].
Qed.

Lemma export_needs_an_image_witness :
  (exists images,
      RightPanel.generatedImages
        (RightPanel.mkProps (Some ["iVBOR"%string]) None None CREATE RETOUCH
           false 3 false (fun key => key)) = Some images /\
      (length images <= 3)%nat) /\
  RightPanel.handleDownloadImage
    (RightPanel.mkProps (Some ["iVBOR"%string]) None None CREATE RETOUCH
       false 3 false (fun key => key))
    (DownloadOptions.mk 1 png 90) RightPanel.export_initial
  = RightPanel.export_initial.
Proof.
  assert (exists images,
             RightPanel.generatedImages
               (RightPanel.mkProps (Some ["iVBOR"%string]) None None CREATE RETOUCH
                  false 3 false (fun key => key)) = Some images /\
             (length images <= 3)%nat) as H
    by (exists ["iVBOR"%string]; split; [reflexivity|cbn; lia]).
  split; [exact H|].
  exact (proj1 (export_needs_an_image _ (DownloadOptions.mk 1 png 90)
                  DownloadModal.initial RightPanel.export_initial
                  (or_intror (or_introl H)))).
Defined.

(** ** The loading message *)

Lemma indexOf_range (l : list string) (v : string) :
  (In v l -> (0 <= JS.indexOf l v < Z.of_nat (length l))%Z) /\
  (~ In v l -> JS.indexOf l v = (-1)%Z).
Proof.
  induction l as [|head rest [IHin IHout]]; cbn [JS.indexOf].
  - split; [intros []|reflexivity].
  - destruct (String.eqb_spec head v) as [->|Hne].
    + split; [intros _; cbn [length]; lia|intros H; exfalso; apply H; now left].
    + split.
      * intros [Heq|Hin]; [congruence|].
        specialize (IHin Hin).
        destruct (Z.ltb_spec (JS.indexOf rest v) 0); cbn [length]; lia.
      * intros Hout.
        rewrite IHout by (intros Hin; apply Hout; now right). reflexivity.
Qed.

(** X20.  Each tick of the interval moves the loading message to the next
    of the five messages and from the last back to the first; a message that
    is not in the list is followed by the first one, so the message shown is
    always one of the five. *)
Theorem loading_messages_rotate :
  (forall k : nat,
      (k < 5)%nat ->
      RightPanel.nextLoadingMessage (nth k RightPanel.videoLoadingMessages EmptyString)
      = nth_error RightPanel.videoLoadingMessages (Nat.modulo (k + 1) 5)) /\
  (forall prev : string,
      ~ In prev RightPanel.videoLoadingMessages ->
      RightPanel.nextLoadingMessage prev = nth_error RightPanel.videoLoadingMessages 0) /\
  (forall prev : string,
      exists next,
        RightPanel.nextLoadingMessage prev = Some next /\
        In next RightPanel.videoLoadingMessages).
Proof.
  assert (forall k : nat,
             (k < 5)%nat ->
             RightPanel.nextLoadingMessage
               (nth k RightPanel.videoLoadingMessages EmptyString)
             = nth_error RightPanel.videoLoadingMessages (Nat.modulo (k + 1) 5)) as Hin.
  { intros k Hk.
    do 5 (destruct k as [|k]; [vm_compute; reflexivity|]). lia. }
  assert (forall prev : string,
             ~ In prev RightPanel.videoLoadingMessages ->
             RightPanel.nextLoadingMessage prev
             = nth_error RightPanel.videoLoadingMessages 0) as Hout.
  { intros prev Hprev. unfold RightPanel.nextLoadingMessage.
    rewrite (proj2 (indexOf_range _ prev) Hprev). reflexivity. }
  split; [exact Hin|]. split; [exact Hout|].
  intros prev.
  destruct (in_dec string_dec prev RightPanel.videoLoadingMessages) as [Hprev|Hprev].
  - destruct (In_nth _ _ EmptyString Hprev) as (k & Hk & <-).
    change (length RightPanel.videoLoadingMessages) with 5%nat in Hk.
    rewrite (Hin k Hk).
    assert (Nat.modulo (k + 1) 5 < 5)%nat as Hm by (apply Nat.mod_upper_bound; lia).
    destruct (nth_error RightPanel.videoLoadingMessages (Nat.modulo (k + 1) 5))
      as [next|] eqn:E.
    + exists next. split; [reflexivity|]. eapply nth_error_In; exact E.
    + apply nth_error_None in E.
      change (length RightPanel.videoLoadingMessages) with 5%nat in E. lia.
  - rewrite (Hout prev Hprev). eexists. split; [reflexivity|]. now left.
Qed.

Lemma loading_messages_rotate_witness :
  (4 < 5)%nat /\
  RightPanel.nextLoadingMessage (nth 4 RightPanel.videoLoadingMessages EmptyString)
  = nth_error RightPanel.videoLoadingMessages 0.
Proof.
  assert (4 < 5)%nat as H by lia.
  split; [exact H|].
  exact (proj1 loading_messages_rotate 4%nat H).
Defined.

(** ** The Escape key of the modal *)

Lemma modal_cleanup_effect (h : DownloadModal.Host) :
  DownloadModal.cleanup (DownloadModal.effect h []) = [].
Proof. unfold DownloadModal.effect. destruct (DownloadModal.isOpen h); reflexivity. Qed.

Lemma modal_commit_same (h : DownloadModal.Host) :
  DownloadModal.window h = DownloadModal.effect h [] ->
  DownloadModal.commit h = h.
Proof.
  intros Hw. unfold DownloadModal.commit.
  rewrite Hw at 1. rewrite modal_cleanup_effect.
  destruct h as [o w]. cbn in *. now rewrite Hw.
Qed.

Lemma modal_commit_listeners (h : DownloadModal.Host) :
  DownloadModal.window h = [] \/ DownloadModal.window h
                                 = [("keydown", "handleKeyDown")%string] ->
  DownloadModal.window (DownloadModal.commit h)
  = DownloadModal.effect (DownloadModal.commit h) [].
Proof.
  intros [Hw|Hw]; unfold DownloadModal.commit; cbn; rewrite Hw;
    unfold DownloadModal.effect; cbn; destruct (DownloadModal.isOpen h); reflexivity.
Qed.

Lemma modal_window_cases (h : DownloadModal.Host) :
  DownloadModal.window h = DownloadModal.effect h [] ->
  DownloadModal.window h = [] \/ DownloadModal.window h
                                 = [("keydown", "handleKeyDown")%string].
Proof.
  intros ->. unfold DownloadModal.effect.
  destruct (DownloadModal.isOpen h); [right|left]; reflexivity.
Qed.

Lemma modal_step_listeners (h : DownloadModal.Host) (ev : DownloadModal.HostEvent) :
  DownloadModal.window h = DownloadModal.effect h [] ->
  DownloadModal.window (DownloadModal.host_step h ev)
  = DownloadModal.effect (DownloadModal.host_step h ev) [].
Proof.
  intros Hw. pose proof (modal_window_cases h Hw) as Hc.
  destruct ev as [| |key]; cbn [DownloadModal.host_step].
  - apply modal_commit_listeners. exact Hc.
  - apply modal_commit_listeners. exact Hc.
  - destruct (Window.registered _ _); [|exact Hw].
    apply modal_commit_listeners. unfold DownloadModal.handleKeyDown.
    destruct (String.eqb key "Escape"); exact Hc.
Qed.

Lemma modal_run_listeners (evs : list DownloadModal.HostEvent) :
  forall h, DownloadModal.window h = DownloadModal.effect h [] ->
            DownloadModal.window (DownloadModal.host_run evs h)
            = DownloadModal.effect (DownloadModal.host_run evs h) [].
Proof.
  induction evs as [|ev evs IH]; intros h Hw; cbn; [exact Hw|].
  apply IH. now apply modal_step_listeners.
Qed.

(** X21.  The modal listens for keys exactly while it is open.  Whatever
    happened before, the Escape key leaves it closed with no listener
    registered, and any other key changes nothing. *)
Theorem modal_escape_closes (evs : list DownloadModal.HostEvent) :
  let h := DownloadModal.host_run evs DownloadModal.mount in
  (DownloadModal.isOpen h = true ->
   DownloadModal.window h = [("keydown", "handleKeyDown")%string]) /\
  (DownloadModal.isOpen h = false -> DownloadModal.window h = []) /\
  DownloadModal.isOpen
    (DownloadModal.host_step h (DownloadModal.WindowKeyDown "Escape")) = false /\
  DownloadModal.window
    (DownloadModal.host_step h (DownloadModal.WindowKeyDown "Escape")) = [] /\
  (forall key, key <> "Escape"%string ->
               DownloadModal.host_step h (DownloadModal.WindowKeyDown key) = h).
Proof.
  intros h.
  assert (DownloadModal.window h = DownloadModal.effect h []) as Hw
    by (apply modal_run_listeners; reflexivity).
  assert (DownloadModal.isOpen
            (DownloadModal.host_step h (DownloadModal.WindowKeyDown "Escape")) = false)
    as Hclosed.
  { cbn [DownloadModal.host_step].
    destruct (Window.registered _ (DownloadModal.window h)) eqn:Hreg; [reflexivity|].
    rewrite Hw in Hreg. unfold DownloadModal.effect in Hreg.
    destruct (DownloadModal.isOpen h); [discriminate Hreg|reflexivity]. }
  split; [|split; [|split; [|split]]].
  - intros Ho. rewrite Hw. unfold DownloadModal.effect. now rewrite Ho.
  - intros Ho. rewrite Hw. unfold DownloadModal.effect. now rewrite Ho.
  - exact Hclosed.
  - rewrite (modal_step_listeners h _ Hw). unfold DownloadModal.effect.
    now rewrite Hclosed.
  - intros key Hkey. cbn [DownloadModal.host_step].
    destruct (Window.registered _ _); [|reflexivity].
    unfold DownloadModal.handleKeyDown.
    destruct (String.eqb_spec key "Escape") as [E|_]; [contradiction|].
    now apply modal_commit_same.
Qed.

Lemma modal_escape_closes_witness :
  DownloadModal.isOpen
    (DownloadModal.host_run [DownloadModal.OpenClick] DownloadModal.mount) = true /\
  DownloadModal.window
    (DownloadModal.host_step
       (DownloadModal.host_run [DownloadModal.OpenClick] DownloadModal.mount)
       (DownloadModal.WindowKeyDown "Escape")) = [].
Proof.
  split; [reflexivity|].
  exact (proj1 (proj2 (proj2 (proj2
           (modal_escape_closes [DownloadModal.OpenClick]))))).
Defined.

(** ** Mouse and touch on the text *)

Lemma text_listeners_together (s : DraggableText.State) :
  DraggableText.window s = DraggableText.effect s [] ->
  Window.registered ("mousemove", "onMouseMove")%string (DraggableText.window s)
  = DraggableText.isDragging s /\
  Window.registered ("touchmove", "onTouchMove")%string (DraggableText.window s)
  = DraggableText.isDragging s /\
  Window.registered ("mouseup", "handleDragEnd")%string (DraggableText.window s)
  = DraggableText.isDragging s /\
  Window.registered ("touchend", "handleDragEnd")%string (DraggableText.window s)
  = DraggableText.isDragging s.
Proof.
  intros ->. unfold DraggableText.effect.
  destruct (DraggableText.isDragging s); repeat split.
Qed.

(** X22.  The text is dragged by touch exactly as by mouse: in every state
    the component can reach, a touch start, a touch move and a touch end do
    what a mouse press, a mouse move and a mouse release at the first touch
    point do; further touches and the mouse button make no difference. *)
Theorem touch_drags_like_mouse
    (overlay : TextOverlayState.t) (evs : list DraggableText.Event)
    (c t : option DOMRect.t) (x y : Q) (others : list (Q * Q)) (button : Z) :
  let s := DraggableText.run evs (DraggableText.mount overlay) in
  DraggableText.step s
    (DraggableText.TouchStart c t (TouchEvent.mk ((x, y) :: others)))
  = DraggableText.step s (DraggableText.MouseDown c t (MouseEvent.mk x y button)) /\
  DraggableText.step s
    (DraggableText.WindowTouchMove c (TouchEvent.mk ((x, y) :: others)))
  = DraggableText.step s (DraggableText.WindowMouseMove c (MouseEvent.mk x y button)) /\
  DraggableText.step s DraggableText.WindowTouchEnd
  = DraggableText.step s DraggableText.WindowMouseUp.
Proof.
  intros s.
  assert (DraggableText.window s = DraggableText.effect s []) as Hw
    by (apply text_run_listeners; reflexivity).
  destruct (text_listeners_together s Hw) as (Hmm & Htm & Hmu & Hte).
  cbn [DraggableText.step]. unfold DraggableText.dispatch.
  rewrite Hmm, Htm, Hmu, Hte.
  repeat split.
Qed.

(** ** A press on the text inside the zoomable image *)

Lemma closest_outer (classes : list string) (inner outer : list string) :
  RightPanel.closest classes inner = false ->
  RightPanel.closest classes (inner ++ outer) = RightPanel.closest classes outer.
Proof.
  unfold RightPanel.closest. intros H. now rewrite existsb_app, H.
Qed.

Lemma shown_text_can_pan (p : RightPanel.Props) (overlay : TextOverlayState.t) :
  RightPanel.showTextOverlay p overlay = true ->
  JS.truthy (RightPanel.generatedVideoUrl p) = false ->
  RightPanel.canZoomPan p = true.
Proof.
  unfold RightPanel.showTextOverlay, RightPanel.canZoomPan, RightPanel.showComparator,
    RightPanel.isClientSideToolActive, RightPanel.hasResult, JS.or_else.
  intros Hshow Hvideo. rewrite Hvideo.
  destruct (RightPanel.mode p); try discriminate Hshow.
  destruct (RightPanel.editFunction p); try discriminate Hshow.
  apply andb_prop in Hshow. destruct Hshow as [_ Himg].
  rewrite Himg. cbn. now rewrite Himg, !andb_false_r.
Qed.

(** X23.  While the text overlay is shown on an image, a press of the
    primary button on the text starts two gestures at once: no element of
    the component carries a class of the tool selector, so, unless an outer
    ancestor does, the press also reaches the pan.  Both controllers are
    then active with their window listeners registered, and the next pointer
    move both repositions the text (against the container as it then is) and
    translates the image by the pointer's offset. *)
Theorem text_press_also_pans
    (p : RightPanel.Props) (outer : list string) (c t later : DOMRect.t)
    (e0 e : MouseEvent.t) (s : RightPanel.Surface) :
  RightPanel.showTextOverlay p
    (DraggableText.textOverlay (RightPanel.overlayState s)) = true ->
  JS.truthy (RightPanel.generatedVideoUrl p) = false ->
  RightPanel.closest RightPanel.toolSelector outer = false ->
  MouseEvent.button e0 = 0%Z ->
  DraggableText.isDragging (RightPanel.overlayState s) = false ->
  DraggableText.window (RightPanel.overlayState s) = [] ->
  RightPanel.isPanning (RightPanel.viewState s) = false ->
  RightPanel.window (RightPanel.viewState s) = [] ->
  let pressed := RightPanel.pressText p outer (Some c) (Some t) e0 s in
  let moved := RightPanel.moveOverSurface (Some later) e pressed in
  DraggableText.isDragging (RightPanel.overlayState pressed) = true /\
  RightPanel.isPanning (RightPanel.viewState pressed) = true /\
  DraggableText.window (RightPanel.overlayState pressed)
  = [("mousemove", "onMouseMove"); ("mouseup", "handleDragEnd");
     ("touchmove", "onTouchMove"); ("touchend", "handleDragEnd")]%string /\
  RightPanel.window (RightPanel.viewState pressed)
  = [("mousemove", "handleMouseMove"); ("mouseup", "handleMouseUp");
     ("mouseleave", "handleMouseUp")]%string /\
  DraggableText.textOverlay (RightPanel.overlayState moved)
  = DraggableText.textOverlay
      (DraggableText.handleDragMove (Some later)
         (MouseEvent.clientX e) (MouseEvent.clientY e)
         (DraggableText.handleDragStart (Some c) (Some t)
            (MouseEvent.clientX e0) (MouseEvent.clientY e0)
            (RightPanel.overlayState s))) /\
  Transform.x (RightPanel.transform (RightPanel.viewState moved))
  = Transform.x (RightPanel.transform (RightPanel.viewState s))
    + (MouseEvent.clientX e - MouseEvent.clientX e0) /\
  Transform.y (RightPanel.transform (RightPanel.viewState moved))
  = Transform.y (RightPanel.transform (RightPanel.viewState s))
    + (MouseEvent.clientY e - MouseEvent.clientY e0).
Proof.
  intros Hshow Hvideo Houter Hb Hidle Hw Hpan Hvw pressed moved.
  pose proof (shown_text_can_pan p _ Hshow Hvideo) as Hzoom.
  assert (RightPanel.closest RightPanel.toolSelector (RightPanel.textPath ++ outer)
          = false) as Hclosest
    by (rewrite closest_outer; [exact Houter|vm_compute; reflexivity]).
  destruct s as [text view]. cbn in Hshow, Hidle, Hw, Hpan, Hvw.
  destruct text as [dragging start overlay w]. cbn in Hshow, Hidle, Hw. subst dragging w.
  destruct view as [tr metrics panning pstart vw]. cbn in Hpan, Hvw. subst panning vw.
  subst moved pressed.
  unfold RightPanel.pressText, RightPanel.moveOverSurface.
  cbn [RightPanel.overlayState RightPanel.viewState].
  rewrite Hclosest. unfold RightPanel.handleMouseDown. rewrite Hzoom, Hb.
  cbn. repeat split.
Qed.

Lemma text_press_also_pans_witness :
  RightPanel.showTextOverlay
    (RightPanel.mkProps (Some ["iVBOR"%string]) None None EDIT TEXT_OVERLAY
       false 0 false (fun key => key))
    Sample.overlay = true /\
  RightPanel.closest RightPanel.toolSelector ["app-root"%string] = false /\
  RightPanel.isPanning
    (RightPanel.viewState
       (RightPanel.pressText
          (RightPanel.mkProps (Some ["iVBOR"%string]) None None EDIT TEXT_OVERLAY
             false 0 false (fun key => key))
          ["app-root"%string] (Some Sample.container) (Some Sample.textBox)
          (MouseEvent.mk 500 250 0)
          (RightPanel.mkSurface (DraggableText.mount Sample.overlay)
             RightPanel.view_initial))) = true.
Proof.
  split; [reflexivity|]. split; [reflexivity|].
  exact (proj1 (proj2 (text_press_also_pans
           (RightPanel.mkProps (Some ["iVBOR"%string]) None None EDIT TEXT_OVERLAY
              false 0 false (fun key => key))
           ["app-root"%string] Sample.container Sample.textBox Sample.container
           (MouseEvent.mk 500 250 0) (MouseEvent.mk 560 250 0)
           (RightPanel.mkSurface (DraggableText.mount Sample.overlay)
              RightPanel.view_initial)
           eq_refl eq_refl eq_refl eq_refl eq_refl eq_refl eq_refl eq_refl))).
Defined.
